(** * Fortran compiler driver: library argument resolution and invocation

    A shallow embedding of [lib/compilers/fortran.ts] (class
    [FortranCompiler]).  The members inherited from [BaseCompiler], the
    [utils] module and the Node.js runtime ([path], [fs]) are interfaces the
    class is written against; they are type classes here, so every result
    about the Fortran methods holds for any implementation of them.  A POSIX
    model of the runtime and a small concrete compiler are provided to run
    the methods on concrete inputs. *)

From Stdlib Require Import List String Ascii Bool Arith ZArith Lia.
Import ListNotations.

Local Open Scope string_scope.
Local Open Scope list_scope.

(** JavaScript [a + b] on strings. *)
Notation "a +s b" := (String.append a b) (at level 50, left associativity).

(* ------------------------------------------------------------------ *)
(** ** JavaScript values used by the class *)

Module Js.

(** A string-typed slot that may hold [undefined]. *)
Definition optstr := option string.

(** Truthiness of such a slot: [undefined] and [''] are falsy. *)
Definition truthy (o : optstr) : bool :=
  match o with
  | Some s => negb (s =? "")
  | None => false
  end.

(** [o || d] for a string-typed slot [o]. *)
Definition or_else (o : optstr) (d : string) : string :=
  match o with
  | Some s => if s =? "" then d else s
  | None => d
  end.

(** The string held by a truthy slot. *)
Definition the (o : optstr) : string :=
  match o with
  | Some s => s
  | None => ""
  end.

(** An element of the array built by [getSharedLibraryPaths]: the callback
    of [map] returns either an array of strings or the boolean [false], and
    [flat()] leaves a non-array element where it is. *)
Inductive item : Type :=
| JStr (s : string)
| JFalse.

(** The result of one [map] callback before [flat()]. *)
Inductive mapped : Type :=
| Arr (l : list string)
| NotArr.

(** [Array.prototype.flat()] with the default depth 1. *)
Definition flat (l : list mapped) : list item :=
  flat_map (fun m => match m with
                     | Arr xs => map JStr xs
                     | NotArr => [JFalse]
                     end) l.

(** [flag + x]: string concatenation converts [false] to ["false"]. *)
Definition add (flag : string) (x : item) : string :=
  match x with
  | JStr s => flag +s s
  | JFalse => flag +s "false"
  end.

(** A promise that has settled. *)
Inductive promise (A : Type) : Type :=
| Resolved (a : A)
| Rejected (reason : string).
Arguments Resolved {A} a.
Arguments Rejected {A} reason.

(** [await p] followed by the rest of an async function. *)
Definition await {A B : Type} (p : promise A) (k : A -> promise B) : promise B :=
  match p with
  | Resolved a => k a
  | Rejected r => Rejected r
  end.

End Js.

(* ------------------------------------------------------------------ *)
(** ** underscore's [_.union] *)

Module Underscore.

(** [_.contains] on an array of strings. *)
Definition contains (l : list string) (x : string) : bool :=
  existsb (String.eqb x) l.

(** One step of [_.uniq]: push the value unless the result has it. *)
Definition push_new (result : list string) (x : string) : list string :=
  if contains result x then result else result ++ [x].

(** The loop of [_.uniq] started on a partial result. *)
Definition uniq_from (result : list string) (l : list string) : list string :=
  fold_left push_new l result.

Definition uniq (l : list string) : list string := uniq_from [] l.

(** [_.union(a1, ..., an)] is [uniq(flatten([a1, ..., an], true))]. *)
Definition union (arrays : list (list string)) : list string :=
  uniq (List.concat arrays).

End Underscore.

(* ------------------------------------------------------------------ *)
(** ** Data model *)

(** [SelectedLibraryVersion] / [CompileChildLibraries]. *)
Record SelectedLibrary : Type := {
  id : string;
  version : string
}.

(** The fields of a library version the class reads. *)
Record LibraryVersion : Type := {
  path : list string;
  libpath : list string;
  packagedheaders : bool
}.

(** The fields of [this.compiler] the class reads. *)
Record CompilerInfo : Type := {
  includeFlag : Js.optstr;
  rpathFlag : Js.optstr;
  libpathFlag : Js.optstr;
  libPath : list string
}.

(** [this.buildenvsetup], when there is one. *)
Record BuildEnvSetup : Type := {
  extractAllToRoot : bool
}.

Record ExecutionOptions : Type := {
  customCwd : Js.optstr;
  env : list (string * string)
}.

(** What [this.exec] resolves to. *)
Record ExecResult : Type := {
  code : Z;
  stdout : string;
  stderr : string
}.

(** What [runCompiler] resolves to. *)
Record CompilationResult : Type := {
  res_code : Z;
  res_stdout : string;
  res_stderr : string;
  res_inputFilename : string
}.

(* ------------------------------------------------------------------ *)
(** ** Interfaces the class is written against *)

(** Node's [path] and [fs] modules. *)
Class NodeRuntime : Type := {
  path_join : list string -> string;
  path_dirname : string -> string;
  path_basename : string -> string;
  fs_existsSync : string -> bool
}.

(** The members of [BaseCompiler] used through [this]. *)
Class BaseCompiler : Type := {
  compiler : CompilerInfo;
  defaultRpathFlag : string;
  buildenvsetup : option BuildEnvSetup;
  findLibVersion : SelectedLibrary -> option LibraryVersion;
  getSortedStaticLibraries : list SelectedLibrary -> list string;
  getDefaultExecOptions : ExecutionOptions;
  exec : string -> list string -> ExecutionOptions -> Js.promise ExecResult
}.

(** [utils.parseOutput(lines, inputFilename)]. *)
Class Utils : Type := {
  parseOutput : string -> string -> string
}.

(* ------------------------------------------------------------------ *)
(** ** The methods of [FortranCompiler] *)

Section FortranCompiler.

Context {node : NodeRuntime} {base : BaseCompiler} {utils : Utils}.

Definition libFilename (lib : string) : string := "lib" +s lib +s ".a".

(** The [for (const dir of libPaths)] loop. *)
Fixpoint probe (libFilename : string) (libPaths : list string) : string :=
  match libPaths with
  | [] => ""
  | dir :: rest =>
      let testpath := path_join [dir; libFilename] in
      if fs_existsSync testpath then testpath else probe libFilename rest
  end.

Definition getExactStaticLibNameAndPath (lib : string) (libPaths : list string) : string :=
  probe (libFilename lib) libPaths.

(** [lib => lib] on a string: non-empty. *)
Definition nonEmpty (lib : string) : bool := negb (lib =? "").

Definition getStaticLibraryLinks (libraries : list SelectedLibrary)
    (libPaths : list string) : list string :=
  map (fun lib => getExactStaticLibNameAndPath lib libPaths)
      (filter nonEmpty (getSortedStaticLibraries libraries)).

(** [this.buildenvsetup && !this.buildenvsetup.extractAllToRoot && dirPath]. *)
Definition addsDownloadedLib (dirPath : Js.optstr) : bool :=
  match buildenvsetup with
  | Some setup => negb (extractAllToRoot setup) && Js.truthy dirPath
  | None => false
  end.

(** The callback of [libraries.map] in [getSharedLibraryPaths]. *)
Definition sharedPathsOf (dirPath : Js.optstr) (selectedLib : SelectedLibrary) : Js.mapped :=
  match findLibVersion selectedLib with
  | None => Js.NotArr
  | Some foundVersion =>
      let paths := libpath foundVersion in
      Js.Arr
        (if addsDownloadedLib dirPath
         then paths ++ [path_join [Js.the dirPath; id selectedLib; "lib"]]
         else paths)
  end.

Definition getSharedLibraryPaths (libraries : list SelectedLibrary)
    (dirPath : Js.optstr) : list Js.item :=
  Js.flat (map (sharedPathsOf dirPath) libraries).

(** [this.compiler.includeFlag || '-I']. *)
Definition theIncludeFlag : string := Js.or_else (includeFlag compiler) "-I".

(** The callback of [libraries.flatMap] in [getIncludeArguments]. *)
Definition includeArgsOf (dirPath : string) (selectedLib : SelectedLibrary) : list string :=
  match findLibVersion selectedLib with
  | None => []
  | Some foundVersion =>
      let paths := map (fun p => theIncludeFlag +s p) (path foundVersion) in
      if packagedheaders foundVersion then
        let modPath := path_join [dirPath; id selectedLib; "mod"] in
        let includePath := path_join [dirPath; id selectedLib; "include"] in
        (paths ++ ["-I" +s modPath]) ++ [theIncludeFlag +s includePath]
      else paths
  end.

Definition getIncludeArguments (libraries : list SelectedLibrary)
    (dirPath : string) : list string :=
  flat_map (includeArgsOf dirPath) libraries.

(** [this.compiler.rpathFlag || this.defaultRpathFlag]. *)
Definition pathFlag : string := Js.or_else (rpathFlag compiler) defaultRpathFlag.

(** [this.compiler.libpathFlag || '-L']. *)
Definition libPathFlag : string := Js.or_else (libpathFlag compiler) "-L".

Definition toolchainLibraryPaths (toolchainPath : Js.optstr) : list string :=
  if Js.truthy toolchainPath
  then [path_join [Js.the toolchainPath; "/lib64"];
        path_join [Js.the toolchainPath; "/lib32"]]
  else [].

(** [if (!libDownloadPath) libDownloadPath = './lib']. *)
Definition downloadRoot (libDownloadPath : Js.optstr) : string :=
  Js.or_else libDownloadPath "./lib".

(** The six arrays handed to [_.union], in argument order. *)
Definition sharedArgumentGroups (libraries : list SelectedLibrary)
    (libDownloadPath toolchainPath dirPath : Js.optstr) : list (list string) :=
  [ [libPathFlag +s downloadRoot libDownloadPath];
    [pathFlag +s downloadRoot libDownloadPath];
    map (fun p => pathFlag +s p) (libPath compiler);
    map (fun p => pathFlag +s p) (toolchainLibraryPaths toolchainPath);
    map (Js.add pathFlag) (getSharedLibraryPaths libraries dirPath);
    map (Js.add libPathFlag) (getSharedLibraryPaths libraries dirPath) ].

Definition getSharedLibraryPathsAsArguments (libraries : list SelectedLibrary)
    (libDownloadPath toolchainPath dirPath : Js.optstr) : list string :=
  Underscore.union (sharedArgumentGroups libraries libDownloadPath toolchainPath dirPath).

(** The options handed to [this.exec]: the caller's (or the default ones)
    with [customCwd] overwritten.  The assignment is made on the caller's
    object; what a caller sees of it afterwards is not modelled. *)
Definition effectiveExecOptions (inputFilename : string)
    (execOptions : option ExecutionOptions) : ExecutionOptions :=
  let execOptions := match execOptions with
                     | Some o => o
                     | None => getDefaultExecOptions
                     end in
  {| customCwd := Some (path_dirname inputFilename); env := env execOptions |}.

(** [runCompiler]: a rejection of [this.exec] (the child could not be
    launched) is the rejection of [runCompiler]; otherwise the result is
    the spread of [exec]'s result with the two streams and [inputFilename]
    replaced. *)
Definition runCompiler (compilerExe : string) (options : list string)
    (inputFilename : string) (execOptions : option ExecutionOptions)
    : Js.promise CompilationResult :=
  let execOptions := effectiveExecOptions inputFilename execOptions in
  Js.await (exec compilerExe options execOptions) (fun result =>
    let baseFilename := "./" +s path_basename inputFilename in
    Js.Resolved
      {| res_code := code result;
         res_stdout := parseOutput (stdout result) baseFilename;
         res_stderr := parseOutput (stderr result) baseFilename;
         res_inputFilename := inputFilename |}).

End FortranCompiler.

(* ------------------------------------------------------------------ *)
(** ** A POSIX model of Node's [path] and [fs]

    [path.posix.join], [dirname] and [basename] as Node implements them,
    written on path segments, and a filesystem given by the list of the
    files that exist.  The methods above do not depend on it; it is the
    runtime used to evaluate them on concrete inputs. *)

Module Posix.

Definition slash : ascii := "/"%char.

Definition isSlash (c : ascii) : bool := Ascii.eqb c slash.

(** [s.split('/')], the current segment being accumulated in [cur]. *)
Fixpoint split_from (cur : string) (s : string) : list string :=
  match s with
  | EmptyString => [cur]
  | String c s' =>
      if isSlash c then cur :: split_from "" s'
      else split_from (cur +s String c "") s'
  end.

Definition segments (s : string) : list string := split_from "" s.

(** One segment of [normalizeString]; [out] is the result so far, last
    segment first. *)
Definition normalize_step (allowAboveRoot : bool) (out : list string)
    (seg : string) : list string :=
  if (seg =? "") || (seg =? ".") then out
  else if seg =? ".." then
    match out with
    | top :: rest =>
        if top =? ".." then (if allowAboveRoot then seg :: out else out)
        else rest
    | [] => if allowAboveRoot then [seg] else []
    end
  else seg :: out.

Definition normalizeString (p : string) (allowAboveRoot : bool) : string :=
  String.concat "/" (rev (fold_left (normalize_step allowAboveRoot) (segments p) [])).

Definition startsWithSlash (p : string) : bool :=
  match p with
  | String c _ => isSlash c
  | EmptyString => false
  end.

Fixpoint endsWithSlash (p : string) : bool :=
  match p with
  | EmptyString => false
  | String c EmptyString => isSlash c
  | String _ p' => endsWithSlash p'
  end.

Definition normalize (p : string) : string :=
  if p =? "" then "."
  else
    let isAbsolute := startsWithSlash p in
    let trailingSeparator := endsWithSlash p in
    let q := normalizeString p (negb isAbsolute) in
    if q =? "" then
      (if isAbsolute then "/" else if trailingSeparator then "./" else ".")
    else
      let q := if trailingSeparator then q +s "/" else q in
      if isAbsolute then "/" +s q else q.

Definition join (args : list string) : string :=
  match filter (fun a => negb (a =? "")) args with
  | [] => "."
  | parts => normalize (String.concat "/" parts)
  end.

Fixpoint dropWhile {A : Type} (f : A -> bool) (l : list A) : list A :=
  match l with
  | [] => []
  | x :: l' => if f x then dropWhile f l' else l
  end.

Fixpoint takeWhile {A : Type} (f : A -> bool) (l : list A) : list A :=
  match l with
  | [] => []
  | x :: l' => if f x then x :: takeWhile f l' else []
  end.

Definition notSlash (c : ascii) : bool := negb (isSlash c).

(** [path.posix.dirname]: the scan runs from the end down to index 1. *)
Definition dirname (p : string) : string :=
  match p with
  | EmptyString => "."
  | String c rest =>
      let hasRoot := isSlash c in
      let scanned := dropWhile notSlash (dropWhile isSlash (rev (list_ascii_of_string rest))) in
      match scanned with
      | [] => if hasRoot then "/" else "."
      | _ :: before =>
          match before with
          | [] => if hasRoot then "//" else String c ""
          | _ => String c (string_of_list_ascii (rev before))
          end
      end
  end.

(** [path.posix.basename] without a suffix argument. *)
Definition basename (p : string) : string :=
  string_of_list_ascii
    (rev (takeWhile notSlash (dropWhile isSlash (rev (list_ascii_of_string p))))).

(** The runtime over a filesystem holding exactly [files]. *)
Definition runtime (files : list string) : NodeRuntime :=
  {| path_join := join;
     path_dirname := dirname;
     path_basename := basename;
     fs_existsSync := fun p => existsb (String.eqb p) files |}.

End Posix.

(* ------------------------------------------------------------------ *)
(** ** A concrete base compiler *)

Module Registry.

(** A library registry as the configuration gives it: versions listed
    under the library id and the version name. *)
Definition t := list (string * string * LibraryVersion).

Definition lookup (r : t) (lib : SelectedLibrary) : option LibraryVersion :=
  match find (fun e => (fst (fst e) =? id lib) && (snd (fst e) =? version lib)) r with
  | Some e => Some (snd e)
  | None => None
  end.

(** The selected libraries that resolve, each with its metadata. *)
Definition resolved (r : t) (libs : list SelectedLibrary)
    : list (SelectedLibrary * LibraryVersion) :=
  flat_map (fun lib => match lookup r lib with
                       | Some v => [(lib, v)]
                       | None => []
                       end) libs.

(** Insertion that keeps the inserted entry before entries of equal key. *)
Fixpoint insert (key : LibraryVersion -> nat) (x : SelectedLibrary * LibraryVersion)
    (l : list (SelectedLibrary * LibraryVersion)) : list (SelectedLibrary * LibraryVersion) :=
  match l with
  | [] => [x]
  | y :: l' => if Nat.leb (key (snd x)) (key (snd y)) then x :: l else y :: insert key x l'
  end.

Definition sort (key : LibraryVersion -> nat)
    (l : list (SelectedLibrary * LibraryVersion)) : list (SelectedLibrary * LibraryVersion) :=
  fold_right (insert key) [] l.

(** Modelled from the spec: [getSortedStaticLibraries] of [BaseCompiler]
    (lib/base-compiler.ts), which the static-link derivation calls first.
    The specification has it order the selected libraries by a dependency
    order, a stable sort on a key defined by the library metadata, and has
    a library whose version cannot be resolved contribute no entry.  The
    key is a parameter; the entries are the library identifiers. *)
Definition sortedStaticLibraries (r : t) (key : LibraryVersion -> nat)
    (libs : list SelectedLibrary) : list string :=
  map (fun e => id (fst e)) (sort key (resolved r libs)).

End Registry.

(** A base compiler over a registry, with the toolchain configuration, the
    build environment and the child process as given. *)
Definition baseCompiler (info : CompilerInfo) (rpath : string)
    (setup : option BuildEnvSetup) (r : Registry.t) (key : LibraryVersion -> nat)
    (run : string -> list string -> ExecutionOptions -> Js.promise ExecResult)
    : BaseCompiler :=
  {| compiler := info;
     defaultRpathFlag := rpath;
     buildenvsetup := setup;
     findLibVersion := Registry.lookup r;
     getSortedStaticLibraries := Registry.sortedStaticLibraries r key;
     getDefaultExecOptions := {| customCwd := None; env := [] |};
     exec := run |}.

(** A toolchain configuration that sets no flag and no library path. *)
Definition defaultInfo : CompilerInfo :=
  {| includeFlag := None; rpathFlag := None; libpathFlag := None; libPath := [] |}.

(** A child process that prints [out] and [err] and exits with [status]. *)
Definition childProcess (status : Z) (out err : string)
    : string -> list string -> ExecutionOptions -> Js.promise ExecResult :=
  fun _ _ _ => Js.Resolved {| code := status; stdout := out; stderr := err |}.

(** A base compiler with the default configuration over a registry. *)
Definition gfortran (setup : option BuildEnvSetup) (r : Registry.t) : BaseCompiler :=
  baseCompiler defaultInfo "-Wl,-rpath," setup r (fun _ => 0) (childProcess 0 "" "").

(** The text with every occurrence of [pat] replaced by [rep], scanning left
    to right ([text.split(pat).join(rep)]); [skip] counts the characters of a
    match still to be passed over. *)
Fixpoint replaceFrom (pat rep : string) (skip : nat) (text : string) : string :=
  match text with
  | EmptyString => EmptyString
  | String c text' =>
      match skip with
      | S n => replaceFrom pat rep n text'
      | O =>
          if String.prefix pat text
          then rep +s replaceFrom pat rep (String.length pat - 1) text'
          else String c (replaceFrom pat rep 0 text')
      end
  end.

Definition replaceAll (pat rep text : string) : string :=
  if pat =? "" then text else replaceFrom pat rep 0 text.

(* ------------------------------------------------------------------ *)
(** ** Sample data

    Two installed libraries that share a library directory, a selected
    library the registry does not know, and the compilers and runtimes the
    worked examples run on. *)

Module Sample.

Definition blas : LibraryVersion :=
  {| path := ["/opt/blas/include"];
     libpath := ["/opt/blas/lib"; "/opt/common/lib"];
     packagedheaders := true |}.

Definition lapack : LibraryVersion :=
  {| path := ["/opt/lapack/include"];
     libpath := ["/opt/common/lib"; "/opt/lapack/lib"];
     packagedheaders := false |}.

Definition registry : Registry.t :=
  [("blas", "3.10", blas); ("lapack", "3.11", lapack)].

Definition selBlas : SelectedLibrary := {| id := "blas"; version := "3.10" |}.
Definition selLapack : SelectedLibrary := {| id := "lapack"; version := "3.11" |}.

(** Not in the registry. *)
Definition selGhost : SelectedLibrary := {| id := "ghost"; version := "0.1" |}.

(** Only the LAPACK archive is on disk. *)
Definition node : NodeRuntime := Posix.runtime ["/opt/lapack/lib/liblapack.a"].

(** Default flags; libraries are unpacked per library under the download
    directory. *)
Definition base : BaseCompiler :=
  gfortran (Some {| extractAllToRoot := false |}) registry.

(** A toolchain configured with its own include flag, and with the same
    flag for runtime paths as for library search paths. *)
Definition customInfo : CompilerInfo :=
  {| includeFlag := Some "-isystem";
     rpathFlag := Some "-L";
     libpathFlag := None;
     libPath := [] |}.

Definition customBase : BaseCompiler :=
  baseCompiler customInfo "-Wl,-rpath," None registry (fun _ => 0) (childProcess 0 "" "").

(** A compiler whose child process exits with [status] after printing a
    diagnostic that names a file by its absolute path. *)
Definition diagnostic : string := "/tmp/work/prog.f90:1:1: Error: Unclassifiable statement".

Definition failing (status : Z) : BaseCompiler :=
  baseCompiler defaultInfo "-Wl,-rpath," None registry (fun _ => 0)
    (childProcess status "" diagnostic).

(** A [utils] whose [parseOutput] returns the text as it is. *)
Definition verbatim : Utils := {| parseOutput := fun lines _ => lines |}.

End Sample.

(* ------------------------------------------------------------------ *)
(** ** Statements about the methods

    The properties the specification asks for, where they are easier to
    read, and to refute, with a name. *)

Section Statements.

Context {node : NodeRuntime} {base : BaseCompiler} {utils : Utils}.

(** Where [lib<name>.a] would be in a search directory. *)
Definition archiveIn (dir lib : string) : string := path_join [dir; libFilename lib].

(** Every entry of the static-link vector is an archive that exists. *)
Definition onlyExistingArchives (libraries : list SelectedLibrary)
    (libPaths : list string) : Prop :=
  forall p, In p (getStaticLibraryLinks libraries libPaths) -> fs_existsSync p = true.

(** The shared-path vector begins with the library-search-path flag and
    the runtime-path flag, each applied to the default root. *)
Definition startsWithDefaultRoot (libraries : list SelectedLibrary)
    (libDownloadPath toolchainPath dirPath : Js.optstr) : Prop :=
  exists rest,
    getSharedLibraryPathsAsArguments libraries libDownloadPath toolchainPath dirPath
    = (libPathFlag +s "./lib") :: (pathFlag +s "./lib") :: rest.

(** Both streams of the outcome are the child's streams with every
    occurrence of the input file path replaced by ["./"] and its base
    name. *)
Definition rewritesInputPath (compilerExe : string) (options : list string)
    (inputFilename : string) (execOptions : option ExecutionOptions) : Prop :=
  forall raw,
    exec compilerExe options (effectiveExecOptions inputFilename execOptions)
      = Js.Resolved raw ->
    exists out,
      runCompiler compilerExe options inputFilename execOptions = Js.Resolved out
      /\ res_stdout out
         = replaceAll inputFilename ("./" +s path_basename inputFilename) (stdout raw)
      /\ res_stderr out
         = replaceAll inputFilename ("./" +s path_basename inputFilename) (stderr raw).

End Statements.

(* ------------------------------------------------------------------ *)
(** ** Notions used to describe the results *)

Section Notions.

Context {node : NodeRuntime} {base : BaseCompiler}.

(** The registry knows the selected library. *)
Definition resolves (lib : SelectedLibrary) : bool :=
  match findLibVersion lib with
  | Some _ => true
  | None => false
  end.

(** Some directory of the list holds [lib<name>.a]. *)
Definition holdsArchive (libPaths : list string) (lib : string) : bool :=
  existsb (fun dir => fs_existsSync (archiveIn dir lib)) libPaths.

(** An argument vector without its empty strings ([_.compact]). *)
Definition compact (args : list string) : list string := filter nonEmpty args.

(** The archive of a library in the first directory, in list order, that
    holds it; the empty string when none does. *)
Definition firstArchive (libPaths : list string) (lib : string) : string :=
  match find (fun dir => fs_existsSync (archiveIn dir lib)) libPaths with
  | Some dir => archiveIn dir lib
  | None => ""
  end.

(** The include arguments written with a given include flag: for every
    selected library that resolves, the flag on each of its include paths,
    then, for packaged headers, ["-I"] on its [mod] folder and the flag on
    its [include] folder. *)
Definition includeArgumentsWithFlag (flag : string) (libraries : list SelectedLibrary)
    (dirPath : string) : list string :=
  flat_map (fun lib =>
              match findLibVersion lib with
              | Some v =>
                  map (fun p => flag +s p) (path v)
                  ++ (if packagedheaders v
                      then ["-I" +s path_join [dirPath; id lib; "mod"];
                            flag +s path_join [dirPath; id lib; "include"]]
                      else [])
              | None => []
              end) libraries.

(** The shared-library paths of the selected libraries that resolve: the
    library paths of each, then its [lib] folder under the download
    directory where the layout asks for it. *)
Definition resolvedSharedLibraryPaths (libraries : list SelectedLibrary)
    (dirPath : Js.optstr) : list string :=
  flat_map (fun lib =>
              match findLibVersion lib with
              | Some v =>
                  if addsDownloadedLib dirPath
                  then libpath v ++ [path_join [Js.the dirPath; id lib; "lib"]]
                  else libpath v
              | None => []
              end) libraries.

(** The six groups of shared-path arguments as the specification lists
    them, the last two over the resolved shared-library paths. *)
Definition listedSharedArgumentGroups (libraries : list SelectedLibrary)
    (libDownloadPath toolchainPath dirPath : Js.optstr) : list (list string) :=
  [ [libPathFlag +s downloadRoot libDownloadPath];
    [pathFlag +s downloadRoot libDownloadPath];
    map (fun p => pathFlag +s p) (libPath compiler);
    map (fun p => pathFlag +s p) (toolchainLibraryPaths toolchainPath);
    map (fun p => pathFlag +s p) (resolvedSharedLibraryPaths libraries dirPath);
    map (fun p => libPathFlag +s p) (resolvedSharedLibraryPaths libraries dirPath) ].

End Notions.

(* ------------------------------------------------------------------ *)
(** * Properties *)

(** ** Strings and JavaScript truthiness *)

Lemma length_append (a b : string) :
  String.length (a +s b) = String.length a + String.length b.
Proof. induction a as [|c a IH]; simpl; [reflexivity | now rewrite IH]. Qed.

Lemma append_cancel_r (a b s : string) : a +s s = b +s s -> a = b.
Proof.
  intros H.
  assert (Hlen : String.length a = String.length b).
  { apply (f_equal String.length) in H.
    rewrite !length_append in H. lia. }
  revert b H Hlen.
  induction a as [|c a IH]; intros [|d b] H Hlen; simpl in *;
    try discriminate; [reflexivity|].
  injection H as -> H. f_equal. apply IH; [exact H | lia].
Qed.

Lemma prefix_append (p s : string) : String.prefix p (p +s s) = true.
Proof.
  induction p as [|c p IH]; simpl.
  - now destruct s.
  - destruct (ascii_dec c c) as [_|N]; [exact IH | now elim N].
Qed.

Lemma or_else_falsy (o : Js.optstr) (d : string) :
  Js.truthy o = false -> Js.or_else o d = d.
Proof.
  destruct o as [s|]; simpl; [|reflexivity].
  now destruct (s =? "").
Qed.

Lemma or_else_custom (f d : string) : f <> "" -> Js.or_else (Some f) d = f.
Proof.
  intros Hf. simpl. destruct (String.eqb_spec f ""); [contradiction | reflexivity].
Qed.

(** ** [_.uniq] keeps the first occurrence of every value *)

Module UnderscoreFacts.
Import Underscore.

Lemma contains_In (l : list string) (x : string) : contains l x = true <-> In x l.
Proof.
  unfold contains. rewrite existsb_exists. split.
  - intros (y & Hy & E). apply String.eqb_eq in E. now subst.
  - intros H. exists x. split; [exact H | apply String.eqb_refl].
Qed.

Lemma contains_not_In (l : list string) (x : string) :
  contains l x = false <-> ~ In x l.
Proof.
  rewrite <- contains_In. destruct (contains l x); split; congruence.
Qed.

Lemma uniq_from_cons (acc : list string) (x : string) (l : list string) :
  uniq_from acc (x :: l) = uniq_from (push_new acc x) l.
Proof. reflexivity. Qed.

Lemma uniq_from_app (acc l1 l2 : list string) :
  uniq_from acc (l1 ++ l2) = uniq_from (uniq_from acc l1) l2.
Proof. apply fold_left_app. Qed.

(** The loop only ever appends, and what it appends is new, duplicate-free
    and covers the input. *)
Lemma uniq_from_extends (l acc : list string) :
  exists rest,
    uniq_from acc l = acc ++ rest
    /\ (forall x, In x rest -> In x l /\ ~ In x acc)
    /\ NoDup rest
    /\ (forall x, In x l -> In x acc \/ In x rest).
Proof.
  revert acc. induction l as [|x l IH]; intros acc.
  - exists []. rewrite app_nil_r. split; [reflexivity|].
    split; [intros x []|]. split; [constructor|]. intros x [].
  - rewrite uniq_from_cons. unfold push_new.
    destruct (contains acc x) eqn:Hc.
    + apply contains_In in Hc.
      destruct (IH acc) as (rest & E & Hnew & Hnd & Hcov).
      exists rest. split; [exact E|]. split; [|split; [exact Hnd|]].
      * intros y Hy. destruct (Hnew y Hy) as [Hl Ha]. split; [now right | exact Ha].
      * intros y [<-|Hy]; [now left | now apply Hcov].
    + apply contains_not_In in Hc.
      destruct (IH (acc ++ [x])) as (rest & E & Hnew & Hnd & Hcov).
      assert (Hfresh : forall y, In y rest -> In y l /\ y <> x /\ ~ In y acc).
      { intros y Hy. destruct (Hnew y Hy) as [Hl Ha]. split; [exact Hl|]. split.
        - intros ->. apply Ha. apply in_or_app. right. now left.
        - intros Hacc. apply Ha. apply in_or_app. now left. }
      exists (x :: rest). split; [|split; [|split]].
      * rewrite E, <- app_assoc. reflexivity.
      * intros y [<-|Hy].
        -- split; [now left | exact Hc].
        -- destruct (Hfresh y Hy) as (Hl & _ & Ha). split; [now right | exact Ha].
      * constructor; [|exact Hnd].
        intros Hx. destruct (Hfresh x Hx) as (_ & Hne & _). now apply Hne.
      * intros y [<-|Hy]; [right; now left|].
        destruct (Hcov y Hy) as [Ha|Hr]; [|right; now right].
        apply in_app_or in Ha. destruct Ha as [Ha|[<-|[]]];
          [now left | right; now left].
Qed.

Lemma In_uniq (l : list string) (x : string) : In x (uniq l) <-> In x l.
Proof.
  unfold uniq. destruct (uniq_from_extends l []) as (rest & E & Hnew & _ & Hcov).
  rewrite E. simpl. split.
  - intros H. now apply Hnew.
  - intros H. destruct (Hcov _ H) as [[]|Hr]. exact Hr.
Qed.

Lemma NoDup_uniq (l : list string) : NoDup (uniq l).
Proof.
  unfold uniq. destruct (uniq_from_extends l []) as (rest & E & _ & Hnd & _).
  now rewrite E.
Qed.

Lemma count_uniq (l : list string) (x : string) :
  In x l -> count_occ string_dec (uniq l) x = 1.
Proof.
  intros H. apply (proj1 (NoDup_count_occ' string_dec (uniq l)) (NoDup_uniq l)).
  now apply In_uniq.
Qed.

(** A value sits right after the distinct values that precede its first
    occurrence, and nowhere else. *)
Lemma uniq_first_occurrence (pre : list string) (x : string) (post : list string) :
  ~ In x pre ->
  exists rest, uniq (pre ++ x :: post) = uniq pre ++ x :: rest /\ ~ In x rest.
Proof.
  intros Hx. unfold uniq at 1. rewrite uniq_from_app, uniq_from_cons.
  fold (uniq pre). unfold push_new.
  assert (Hc : contains (uniq pre) x = false).
  { apply contains_not_In. now rewrite In_uniq. }
  rewrite Hc.
  destruct (uniq_from_extends post (uniq pre ++ [x])) as (rest & E & Hnew & _ & _).
  exists rest. split.
  - rewrite E, <- app_assoc. reflexivity.
  - intros Hr. apply (proj2 (Hnew _ Hr)). apply in_or_app. right. now left.
Qed.

(** First occurrences keep their relative order. *)
Lemma uniq_order (pre : list string) (x : string) (mid : list string)
    (y : string) (post : list string) :
  ~ In x pre -> ~ In y (pre ++ x :: mid) ->
  exists a b c, uniq (pre ++ x :: mid ++ y :: post) = a ++ x :: b ++ y :: c.
Proof.
  intros Hx Hy.
  destruct (uniq_first_occurrence (pre ++ x :: mid) y post Hy) as (c & E & _).
  destruct (uniq_first_occurrence pre x mid Hx) as (b & E' & _).
  exists (uniq pre), b, c.
  replace (pre ++ x :: mid ++ y :: post) with ((pre ++ x :: mid) ++ y :: post)
    by (rewrite <- app_assoc; reflexivity).
  rewrite E, E', <- app_assoc. reflexivity.
Qed.

Lemma uniq_head (x : string) (l : list string) :
  exists rest, uniq (x :: l) = x :: rest /\ ~ In x rest.
Proof.
  destruct (uniq_first_occurrence [] x l) as (rest & E & H); [intros []|].
  exists rest. split; [exact E | exact H].
Qed.

Lemma uniq_head2 (x y : string) (l : list string) :
  x <> y -> exists rest, uniq (x :: y :: l) = x :: y :: rest.
Proof.
  intros Hxy.
  destruct (uniq_first_occurrence [x] y l) as (rest & E & _).
  { intros [H|[]]. now apply Hxy. }
  exists rest. exact E.
Qed.

End UnderscoreFacts.

(** ** The modelled dependency order *)

(** In the order modelled on the specification a library that does not
    resolve has no entry, so it cannot reach the static-link vector. *)
Lemma sortedStaticLibraries_unresolved (r : Registry.t) (key : LibraryVersion -> nat)
    (before : list SelectedLibrary) (lib : SelectedLibrary) (after : list SelectedLibrary) :
  Registry.lookup r lib = None ->
  Registry.sortedStaticLibraries r key (before ++ lib :: after)
  = Registry.sortedStaticLibraries r key (before ++ after).
Proof.
  intros Hnone. unfold Registry.sortedStaticLibraries, Registry.resolved.
  rewrite !flat_map_app. simpl. now rewrite Hnone.
Qed.

(** ** Static archives *)

Section StaticLibraries.

Context {node : NodeRuntime} {base : BaseCompiler}.

Lemma probe_first (file : string) (pre : list string) (dir : string) (post : list string) :
  (forall d, In d pre -> fs_existsSync (path_join [d; file]) = false) ->
  fs_existsSync (path_join [dir; file]) = true ->
  probe file (pre ++ dir :: post) = path_join [dir; file].
Proof.
  intros Hpre Hdir. induction pre as [|d pre IH]; simpl.
  - now rewrite Hdir.
  - rewrite (Hpre d) by now left. apply IH. intros d' Hd'. apply Hpre. now right.
Qed.

Lemma probe_none (file : string) (libPaths : list string) :
  (forall d, In d libPaths -> fs_existsSync (path_join [d; file]) = false) ->
  probe file libPaths = "".
Proof.
  intros Hnone. induction libPaths as [|d rest IH]; simpl; [reflexivity|].
  rewrite (Hnone d) by now left. apply IH. intros d' Hd'. apply Hnone. now right.
Qed.

(** The loop ends in one of two ways: on the first directory that holds the
    file, or past the last one with the empty string. *)
Lemma probe_cases (file : string) (libPaths : list string) :
  (probe file libPaths = ""
   /\ forall d, In d libPaths -> fs_existsSync (path_join [d; file]) = false)
  \/ (exists pre dir post,
        libPaths = pre ++ dir :: post
        /\ (forall d, In d pre -> fs_existsSync (path_join [d; file]) = false)
        /\ fs_existsSync (path_join [dir; file]) = true
        /\ probe file libPaths = path_join [dir; file]).
Proof.
  induction libPaths as [|d rest IH]; simpl.
  - left. split; [reflexivity | intros d []].
  - destruct (fs_existsSync (path_join [d; file])) eqn:Hd.
    + right. exists [], d, rest. repeat split; auto. intros d' [].
    + destruct IH as [[E Hnone] | (pre & dir & post & -> & Hpre & Hdir & E)].
      * left. split; [exact E|]. intros d' [<-|Hd']; [exact Hd | now apply Hnone].
      * right. exists (d :: pre), dir, post. repeat split; auto.
        intros d' [<-|Hd']; [exact Hd | now apply Hpre].
Qed.

(** C4: [getExactStaticLibNameAndPath] returns the joined path of the
    directory and [lib<name>.a] for the first directory, in list order, in
    which that file exists, and the empty string when no listed directory
    holds the file; it returns a string in every case, so the empty result
    is an ordinary return value. *)
Theorem getExactStaticLibNameAndPath_first_existing (lib : string) (libPaths : list string) :
  (forall pre dir post,
      libPaths = pre ++ dir :: post ->
      (forall d, In d pre -> fs_existsSync (path_join [d; "lib" +s lib +s ".a"]) = false) ->
      fs_existsSync (path_join [dir; "lib" +s lib +s ".a"]) = true ->
      getExactStaticLibNameAndPath lib libPaths = path_join [dir; "lib" +s lib +s ".a"])
  /\ ((forall d, In d libPaths -> fs_existsSync (path_join [d; "lib" +s lib +s ".a"]) = false) ->
      getExactStaticLibNameAndPath lib libPaths = "")
  /\ (getExactStaticLibNameAndPath lib libPaths = ""
      \/ exists dir, In dir libPaths
           /\ getExactStaticLibNameAndPath lib libPaths = path_join [dir; "lib" +s lib +s ".a"]
           /\ fs_existsSync (getExactStaticLibNameAndPath lib libPaths) = true).
Proof.
  unfold getExactStaticLibNameAndPath. fold (libFilename lib).
  split; [|split].
  - intros pre dir post -> Hpre Hdir. now apply probe_first.
  - apply probe_none.
  - destruct (probe_cases (libFilename lib) libPaths)
      as [[E _] | (pre & dir & post & -> & _ & Hdir & E)].
    + now left.
    + right. exists dir. split; [apply in_or_app; right; now left|].
      split; [exact E | now rewrite E].
Qed.

Lemma probe_firstArchive (lib : string) (libPaths : list string) :
  probe (libFilename lib) libPaths = firstArchive libPaths lib.
Proof.
  unfold firstArchive, archiveIn. induction libPaths as [|d rest IH]; simpl; [reflexivity|].
  destruct (fs_existsSync (path_join [d; libFilename lib])); [reflexivity | exact IH].
Qed.

(** C2, as the code has it: the static-link vector has exactly one entry for
    every non-empty name of the sorted static library list, in that order,
    and nothing else; the entry is the archive in the first search directory
    that holds [lib<name>.a] (all directories before it do not), or the
    empty string when no search directory holds it.  The filter runs on the
    names, before resolution, so an empty resolution stays in the vector. *)
Theorem getStaticLibraryLinks_one_entry_per_name
    (libraries : list SelectedLibrary) (libPaths : list string) :
  getStaticLibraryLinks libraries libPaths
  = map (firstArchive libPaths) (filter (fun lib => negb (lib =? "")) (getSortedStaticLibraries libraries))
  /\ Forall2
       (fun lib p =>
          lib <> ""
          /\ ((p = ""
               /\ forall d, In d libPaths -> fs_existsSync (archiveIn d lib) = false)
              \/ (exists pre dir post,
                     libPaths = pre ++ dir :: post
                     /\ (forall d, In d pre -> fs_existsSync (archiveIn d lib) = false)
                     /\ fs_existsSync (archiveIn dir lib) = true
                     /\ p = archiveIn dir lib)))
       (filter (fun lib => negb (lib =? "")) (getSortedStaticLibraries libraries))
       (getStaticLibraryLinks libraries libPaths).
Proof.
  change (fun lib : string => negb (lib =? "")) with nonEmpty.
  unfold getStaticLibraryLinks. split.
  - apply map_ext. intros lib. apply probe_firstArchive.
  - assert (Hne : forall lib,
               In lib (filter nonEmpty (getSortedStaticLibraries libraries)) -> lib <> "").
    { intros lib Hin. apply filter_In in Hin. destruct Hin as [_ Hn].
      unfold nonEmpty in Hn. intros ->. discriminate Hn. }
    induction (filter nonEmpty (getSortedStaticLibraries libraries)) as [|lib names IH];
      simpl; constructor.
    + split; [apply Hne; now left|].
      unfold getExactStaticLibNameAndPath, archiveIn.
      destruct (probe_cases (libFilename lib) libPaths)
        as [[E Hnone] | (pre & dir & post & Hsplit & Hpre & Hdir & E)].
      * left. split; [exact E | exact Hnone].
      * right. exists pre, dir, post. repeat split; assumption.
    + apply IH. intros lib' Hin. apply Hne. now right.
Qed.

End StaticLibraries.

(** ** Include arguments *)

Section IncludeArguments.

Context {node : NodeRuntime} {base : BaseCompiler}.

Lemma getIncludeArguments_app (l1 l2 : list SelectedLibrary) (dirPath : string) :
  getIncludeArguments (l1 ++ l2) dirPath
  = getIncludeArguments l1 dirPath ++ getIncludeArguments l2 dirPath.
Proof. apply flat_map_app. Qed.

Lemma getIncludeArguments_cons (lib : SelectedLibrary) (l : list SelectedLibrary)
    (dirPath : string) :
  getIncludeArguments (lib :: l) dirPath
  = includeArgsOf dirPath lib ++ getIncludeArguments l dirPath.
Proof. reflexivity. Qed.

(** A library without metadata adds nothing to the include arguments. *)
Lemma getIncludeArguments_unresolved (before : list SelectedLibrary)
    (lib : SelectedLibrary) (after : list SelectedLibrary) (dirPath : string) :
  findLibVersion lib = None ->
  getIncludeArguments (before ++ lib :: after) dirPath
  = getIncludeArguments (before ++ after) dirPath.
Proof.
  intros Hnone. rewrite !getIncludeArguments_app, getIncludeArguments_cons.
  unfold includeArgsOf. now rewrite Hnone.
Qed.

(** Where an include argument comes from. *)
Lemma In_getIncludeArguments (libraries : list SelectedLibrary) (dirPath a : string) :
  In a (getIncludeArguments libraries dirPath) <->
  exists lib v,
    In lib libraries /\ findLibVersion lib = Some v
    /\ ((exists p, In p (path v) /\ a = theIncludeFlag +s p)
        \/ (packagedheaders v = true
            /\ (a = "-I" +s path_join [dirPath; id lib; "mod"]
                \/ a = theIncludeFlag +s path_join [dirPath; id lib; "include"]))).
Proof.
  unfold getIncludeArguments. rewrite in_flat_map. split.
  - intros (lib & Hlib & Ha). unfold includeArgsOf in Ha.
    destruct (findLibVersion lib) as [v|] eqn:Hv; [|destruct Ha].
    exists lib, v. split; [exact Hlib|]. split; [exact Hv|].
    destruct (packagedheaders v).
    + apply in_app_or in Ha. destruct Ha as [Ha|[<-|[]]].
      * apply in_app_or in Ha. destruct Ha as [Ha|[<-|[]]].
        -- apply in_map_iff in Ha. destruct Ha as (p & <- & Hp). left. now exists p.
        -- right. split; [reflexivity | now left].
      * right. split; [reflexivity | now right].
    + apply in_map_iff in Ha. destruct Ha as (p & <- & Hp). left. now exists p.
  - intros (lib & v & Hlib & Hv & Ha). exists lib. split; [exact Hlib|].
    unfold includeArgsOf. rewrite Hv.
    destruct Ha as [(p & Hp & ->) | (Hpk & Ha)].
    + assert (In (theIncludeFlag +s p) (map (fun p => theIncludeFlag +s p) (path v)))
        by (apply in_map_iff; now exists p).
      destruct (packagedheaders v); [|assumption].
      apply in_or_app. left. apply in_or_app. now left.
    + rewrite Hpk. destruct Ha as [-> | ->].
      * apply in_or_app. left. apply in_or_app. right. now left.
      * apply in_or_app. right. now left.
Qed.

(** C6: for a library whose metadata has packaged headers, with download
    root [dirPath] and library id [id lib], [getIncludeArguments] emits the
    module-path argument ["-I"] on the joined path of the root, the id and
    ["mod"], then the include argument with the configured include flag on
    the sibling ["include"] folder; the two come right after that library's
    own include-path arguments and before anything of the next library. *)
Theorem getIncludeArguments_packaged_headers (before : list SelectedLibrary)
    (lib : SelectedLibrary) (after : list SelectedLibrary) (v : LibraryVersion)
    (dirPath : string) :
  findLibVersion lib = Some v ->
  packagedheaders v = true ->
  getIncludeArguments (before ++ lib :: after) dirPath
  = getIncludeArguments before dirPath
    ++ map (fun p => Js.or_else (includeFlag compiler) "-I" +s p) (path v)
    ++ ["-I" +s path_join [dirPath; id lib; "mod"];
        Js.or_else (includeFlag compiler) "-I" +s path_join [dirPath; id lib; "include"]]
    ++ getIncludeArguments after dirPath.
Proof.
  intros Hv Hpk.
  rewrite getIncludeArguments_app, getIncludeArguments_cons.
  unfold includeArgsOf. rewrite Hv, Hpk. fold theIncludeFlag.
  rewrite <- !app_assoc. reflexivity.
Qed.

(** Whatever the include flag is, the vector is the one written with it. *)
Lemma getIncludeArguments_with_flag (libraries : list SelectedLibrary) (dirPath : string) :
  getIncludeArguments libraries dirPath
  = includeArgumentsWithFlag theIncludeFlag libraries dirPath.
Proof.
  unfold getIncludeArguments, includeArgumentsWithFlag. apply flat_map_ext.
  intros lib. unfold includeArgsOf.
  destruct (findLibVersion lib) as [v|]; [|reflexivity].
  destruct (packagedheaders v).
  - rewrite <- app_assoc. reflexivity.
  - now rewrite app_nil_r.
Qed.

(** C7: when the toolchain configuration has no include flag, the include
    arguments are those written with ["-I"]: ["-I"] followed by the path
    for each include path of each resolved library, and every argument
    produced starts with ["-I"].  When a custom include flag is configured,
    they are those written with that flag: the argument of every include
    path of every resolved library is that flag followed by the path, and
    the only other arguments are the two of a library with packaged
    headers. *)
Theorem getIncludeArguments_include_flag (libraries : list SelectedLibrary)
    (dirPath : string) :
  (Js.truthy (includeFlag compiler) = false ->
   getIncludeArguments libraries dirPath = includeArgumentsWithFlag "-I" libraries dirPath
   /\ (forall lib v p,
         In lib libraries -> findLibVersion lib = Some v -> In p (path v) ->
         In ("-I" +s p) (getIncludeArguments libraries dirPath))
   /\ (forall a, In a (getIncludeArguments libraries dirPath) ->
                 String.prefix "-I" a = true))
  /\ (forall flag, includeFlag compiler = Some flag -> flag <> "" ->
      getIncludeArguments libraries dirPath
      = includeArgumentsWithFlag flag libraries dirPath
      /\ (forall lib v p,
            In lib libraries -> findLibVersion lib = Some v -> In p (path v) ->
            In (flag +s p) (getIncludeArguments libraries dirPath))
      /\ (forall a, In a (getIncludeArguments libraries dirPath) ->
          exists lib v,
            In lib libraries /\ findLibVersion lib = Some v
            /\ ((exists p, In p (path v) /\ a = flag +s p)
                \/ (packagedheaders v = true
                    /\ (a = "-I" +s path_join [dirPath; id lib; "mod"]
                        \/ a = flag +s path_join [dirPath; id lib; "include"]))))).
Proof.
  split.
  - intros Hfalsy.
    assert (Hflag : theIncludeFlag = "-I") by (now apply or_else_falsy).
    split; [|split].
    + now rewrite getIncludeArguments_with_flag, Hflag.
    + intros lib v p Hlib Hv Hp. apply In_getIncludeArguments.
      exists lib, v. rewrite Hflag. split; [exact Hlib|]. split; [exact Hv|].
      left. now exists p.
    + intros a Ha. apply In_getIncludeArguments in Ha.
      destruct Ha as (lib & v & _ & _ & [(p & _ & ->) | (_ & [-> | ->])]);
        rewrite ?Hflag; apply prefix_append.
  - intros flag Hcfg Hne.
    assert (Hflag : theIncludeFlag = flag).
    { unfold theIncludeFlag. rewrite Hcfg. now apply or_else_custom. }
    split; [|split].
    + now rewrite getIncludeArguments_with_flag, Hflag.
    + intros lib v p Hlib Hv Hp. apply In_getIncludeArguments.
      exists lib, v. rewrite Hflag. split; [exact Hlib|]. split; [exact Hv|].
      left. now exists p.
    + intros a Ha. apply In_getIncludeArguments in Ha. now rewrite Hflag in Ha.
Qed.

End IncludeArguments.

(** ** Shared-library paths *)

Section SharedLibraryPaths.

Context {node : NodeRuntime} {base : BaseCompiler}.

Lemma getSharedLibraryPaths_app (l1 l2 : list SelectedLibrary) (dirPath : Js.optstr) :
  getSharedLibraryPaths (l1 ++ l2) dirPath
  = getSharedLibraryPaths l1 dirPath ++ getSharedLibraryPaths l2 dirPath.
Proof.
  unfold getSharedLibraryPaths, Js.flat. now rewrite map_app, flat_map_app.
Qed.

Lemma getSharedLibraryPaths_resolved (lib : SelectedLibrary) (v : LibraryVersion)
    (l : list SelectedLibrary) (dirPath : Js.optstr) :
  findLibVersion lib = Some v ->
  getSharedLibraryPaths (lib :: l) dirPath
  = map Js.JStr (if addsDownloadedLib dirPath
                 then libpath v ++ [path_join [Js.the dirPath; id lib; "lib"]]
                 else libpath v)
    ++ getSharedLibraryPaths l dirPath.
Proof.
  intros Hv. unfold getSharedLibraryPaths, Js.flat. simpl.
  unfold sharedPathsOf at 1. now rewrite Hv.
Qed.

Lemma getSharedLibraryPaths_unresolved (lib : SelectedLibrary)
    (l : list SelectedLibrary) (dirPath : Js.optstr) :
  findLibVersion lib = None ->
  getSharedLibraryPaths (lib :: l) dirPath = Js.JFalse :: getSharedLibraryPaths l dirPath.
Proof.
  intros Hv. unfold getSharedLibraryPaths, Js.flat. simpl.
  unfold sharedPathsOf at 1. now rewrite Hv.
Qed.

(** The guard of the [push], in words. *)
Lemma addsDownloadedLib_iff (dirPath : Js.optstr) :
  addsDownloadedLib dirPath = true <->
  (Js.truthy dirPath = true
   /\ exists setup, buildenvsetup = Some setup /\ extractAllToRoot setup = false).
Proof.
  unfold addsDownloadedLib. destruct buildenvsetup as [setup|].
  - rewrite andb_true_iff, negb_true_iff. split.
    + intros [He Hd]. split; [exact Hd|]. now exists setup.
    + intros [Hd (setup' & [= <-] & He)]. now split.
  - split; [discriminate|]. intros [_ (setup & [=] & _)].
Qed.

(** C8: for a resolved library, [getSharedLibraryPaths] appends the joined
    path of the download directory, the library id and ["lib"] after the
    library's own [libpath] exactly when a download directory is given, a
    build-environment setup exists and that setup does not extract
    everything to one root; otherwise the library contributes its own
    [libpath] only. *)
Theorem getSharedLibraryPaths_downloaded_lib (before : list SelectedLibrary)
    (lib : SelectedLibrary) (after : list SelectedLibrary) (v : LibraryVersion)
    (dirPath : Js.optstr) :
  findLibVersion lib = Some v ->
  let given := Js.truthy dirPath = true
               /\ exists setup, buildenvsetup = Some setup
                                /\ extractAllToRoot setup = false in
  let synthesized := path_join [Js.the dirPath; id lib; "lib"] in
  (given ->
   getSharedLibraryPaths (before ++ lib :: after) dirPath
   = getSharedLibraryPaths before dirPath
     ++ map Js.JStr (libpath v ++ [synthesized])
     ++ getSharedLibraryPaths after dirPath)
  /\ (~ given ->
      getSharedLibraryPaths (before ++ lib :: after) dirPath
      = getSharedLibraryPaths before dirPath
        ++ map Js.JStr (libpath v)
        ++ getSharedLibraryPaths after dirPath)
  /\ (getSharedLibraryPaths [lib] dirPath = map Js.JStr (libpath v ++ [synthesized])
      <-> given).
Proof.
  intros Hv given synthesized.
  pose proof (addsDownloadedLib_iff dirPath) as Hiff. fold given in Hiff.
  assert (Hstep : forall l, getSharedLibraryPaths (before ++ lib :: l) dirPath
            = getSharedLibraryPaths before dirPath
              ++ map Js.JStr (if addsDownloadedLib dirPath
                              then libpath v ++ [synthesized] else libpath v)
              ++ getSharedLibraryPaths l dirPath).
  { intros l. now rewrite getSharedLibraryPaths_app,
      (getSharedLibraryPaths_resolved lib v l dirPath Hv). }
  split; [|split].
  - intros Hg. apply Hiff in Hg. rewrite Hstep, Hg. reflexivity.
  - intros Hg. rewrite Hstep.
    destruct (addsDownloadedLib dirPath); [|reflexivity].
    exfalso. apply Hg. now apply Hiff.
  - rewrite (getSharedLibraryPaths_resolved lib v [] dirPath Hv).
    unfold getSharedLibraryPaths at 1. simpl. rewrite app_nil_r.
    destruct (addsDownloadedLib dirPath).
    + split; [intros _; now apply Hiff | reflexivity].
    + split; [|intros Hg; apply Hiff in Hg; discriminate].
      intros E. apply (f_equal (@List.length Js.item)) in E.
      rewrite !length_map, length_app in E. simpl in E. lia.
Qed.

Lemma In_getSharedLibraryPathsAsArguments (libraries : list SelectedLibrary)
    (libDownloadPath toolchainPath dirPath : Js.optstr) (a : string) :
  In a (getSharedLibraryPathsAsArguments libraries libDownloadPath toolchainPath dirPath)
  <-> In a (List.concat
              (sharedArgumentGroups libraries libDownloadPath toolchainPath dirPath)).
Proof. apply UnderscoreFacts.In_uniq. Qed.

(** C1, at the shared-library paths: a selected library whose version is
    not found does leave entries.  The [map] callback returns [false] for
    it and [flat()] keeps that element, so [getSharedLibraryPaths] holds
    [false] at the library's position, and
    [getSharedLibraryPathsAsArguments] holds the runtime-path flag and the
    library-search-path flag each followed by ["false"]. *)
Theorem unresolved_library_reaches_shared_paths (before : list SelectedLibrary)
    (lib : SelectedLibrary) (after : list SelectedLibrary)
    (libDownloadPath toolchainPath dirPath : Js.optstr) :
  findLibVersion lib = None ->
  getSharedLibraryPaths (before ++ lib :: after) dirPath
  = getSharedLibraryPaths before dirPath
    ++ Js.JFalse :: getSharedLibraryPaths after dirPath
  /\ In (pathFlag +s "false")
        (getSharedLibraryPathsAsArguments (before ++ lib :: after)
           libDownloadPath toolchainPath dirPath)
  /\ In (libPathFlag +s "false")
        (getSharedLibraryPathsAsArguments (before ++ lib :: after)
           libDownloadPath toolchainPath dirPath).
Proof.
  intros Hnone.
  assert (E : getSharedLibraryPaths (before ++ lib :: after) dirPath
              = getSharedLibraryPaths before dirPath
                ++ Js.JFalse :: getSharedLibraryPaths after dirPath).
  { now rewrite getSharedLibraryPaths_app, getSharedLibraryPaths_unresolved. }
  assert (Hin : In Js.JFalse (getSharedLibraryPaths (before ++ lib :: after) dirPath)).
  { rewrite E. apply in_or_app. right. now left. }
  split; [exact E|].
  split; apply In_getSharedLibraryPathsAsArguments; unfold sharedArgumentGroups;
    simpl; rewrite app_nil_r.
  - right. right. apply in_or_app. right. apply in_or_app. right.
    apply in_or_app. left.
    change (pathFlag +s "false") with (Js.add pathFlag Js.JFalse). now apply in_map.
  - right. right. apply in_or_app. right. apply in_or_app. right.
    apply in_or_app. right.
    change (libPathFlag +s "false") with (Js.add libPathFlag Js.JFalse). now apply in_map.
Qed.

End SharedLibraryPaths.

(** ** Shared-library path arguments *)

Section SharedLibraryPathArguments.

Context {node : NodeRuntime} {base : BaseCompiler}.

Lemma In_getSharedLibraryPaths (libraries : list SelectedLibrary)
    (lib : SelectedLibrary) (v : LibraryVersion) (p : string) (dirPath : Js.optstr) :
  In lib libraries -> findLibVersion lib = Some v -> In p (libpath v) ->
  In (Js.JStr p) (getSharedLibraryPaths libraries dirPath).
Proof.
  intros Hlib Hv Hp. apply in_split in Hlib. destruct Hlib as (l1 & l2 & ->).
  rewrite getSharedLibraryPaths_app, (getSharedLibraryPaths_resolved lib v l2 dirPath Hv).
  apply in_or_app. right. apply in_or_app. left. apply in_map.
  destruct (addsDownloadedLib dirPath); [apply in_or_app; now left | exact Hp].
Qed.

(** The arrays handed to [_.union], laid end to end. *)
Lemma concat_sharedArgumentGroups (libraries : list SelectedLibrary)
    (libDownloadPath toolchainPath dirPath : Js.optstr) :
  List.concat (sharedArgumentGroups libraries libDownloadPath toolchainPath dirPath)
  = [libPathFlag +s Js.or_else libDownloadPath "./lib"]
    ++ [pathFlag +s Js.or_else libDownloadPath "./lib"]
    ++ map (fun p => pathFlag +s p) (libPath compiler)
    ++ (if Js.truthy toolchainPath
        then [pathFlag +s path_join [Js.the toolchainPath; "/lib64"];
              pathFlag +s path_join [Js.the toolchainPath; "/lib32"]]
        else [])
    ++ map (Js.add pathFlag) (getSharedLibraryPaths libraries dirPath)
    ++ map (Js.add libPathFlag) (getSharedLibraryPaths libraries dirPath).
Proof.
  unfold sharedArgumentGroups, toolchainLibraryPaths, downloadRoot. simpl.
  rewrite app_nil_r. now destruct (Js.truthy toolchainPath).
Qed.

(** The union as the code forms it.  The vector of
    [getSharedLibraryPathsAsArguments] is the union, in order, of six
    arrays: the library-search-path flag on the download root; the
    runtime-path flag on the download root; the runtime-path flag on each
    toolchain-global library path; the runtime-path flag on [lib64] and
    [lib32] under the toolchain root when one is given; the runtime-path
    flag on each element of [getSharedLibraryPaths], a [false] among them
    included; the library-search-path flag on those same elements.  It has no duplicate, holds exactly the
    strings of the groups, each once, each at the place of its first
    occurrence (right after the distinct strings that precede it), with
    first occurrences in their relative order; in particular a path that
    several libraries share appears once with each flag. *)
Theorem getSharedLibraryPathsAsArguments_union (libraries : list SelectedLibrary)
    (libDownloadPath toolchainPath dirPath : Js.optstr) :
  let root := Js.or_else libDownloadPath "./lib" in
  let shared := getSharedLibraryPaths libraries dirPath in
  let all := [libPathFlag +s root]
             ++ [pathFlag +s root]
             ++ map (fun p => pathFlag +s p) (libPath compiler)
             ++ (if Js.truthy toolchainPath
                 then [pathFlag +s path_join [Js.the toolchainPath; "/lib64"];
                       pathFlag +s path_join [Js.the toolchainPath; "/lib32"]]
                 else [])
             ++ map (Js.add pathFlag) shared
             ++ map (Js.add libPathFlag) shared in
  let out := getSharedLibraryPathsAsArguments libraries libDownloadPath
               toolchainPath dirPath in
  NoDup out
  /\ (forall a, In a out <-> In a all)
  /\ (forall a, In a all -> count_occ string_dec out a = 1)
  /\ (forall pre a post,
        all = pre ++ a :: post -> ~ In a pre ->
        exists rest, out = Underscore.uniq pre ++ a :: rest /\ ~ In a rest)
  /\ (forall pre a mid b post,
        all = pre ++ a :: mid ++ b :: post ->
        ~ In a pre -> ~ In b (pre ++ a :: mid) ->
        exists x y z, out = x ++ a :: y ++ b :: z)
  /\ (forall lib v p,
        In lib libraries -> findLibVersion lib = Some v -> In p (libpath v) ->
        count_occ string_dec out (pathFlag +s p) = 1
        /\ count_occ string_dec out (libPathFlag +s p) = 1).
Proof.
  intros root shared all out.
  assert (Eout : out = Underscore.uniq all).
  { unfold out, getSharedLibraryPathsAsArguments, Underscore.union.
    now rewrite concat_sharedArgumentGroups. }
  rewrite Eout. split; [apply UnderscoreFacts.NoDup_uniq|].
  split; [intros a; apply UnderscoreFacts.In_uniq|].
  split; [intros a; apply UnderscoreFacts.count_uniq|].
  split; [|split].
  - intros pre a post -> Ha. now apply UnderscoreFacts.uniq_first_occurrence.
  - intros pre a mid b post -> Ha Hb. now apply UnderscoreFacts.uniq_order.
  - intros lib v p Hlib Hv Hp.
    pose proof (In_getSharedLibraryPaths libraries lib v p dirPath Hlib Hv Hp) as Hin.
    fold shared in Hin.
    split; apply UnderscoreFacts.count_uniq; unfold all; rewrite !in_app_iff.
    + do 4 right. left.
      change (pathFlag +s p) with (Js.add pathFlag (Js.JStr p)). now apply in_map.
    + do 5 right.
      change (libPathFlag +s p) with (Js.add libPathFlag (Js.JStr p)). now apply in_map.
Qed.

(** A selected library without a version puts [false] among the paths. *)
Lemma In_JFalse_getSharedLibraryPaths (libraries : list SelectedLibrary)
    (lib : SelectedLibrary) (dirPath : Js.optstr) :
  In lib libraries -> findLibVersion lib = None ->
  In Js.JFalse (getSharedLibraryPaths libraries dirPath).
Proof.
  intros Hlib Hnone. apply in_split in Hlib. destruct Hlib as (l1 & l2 & ->).
  rewrite getSharedLibraryPaths_app, (getSharedLibraryPaths_unresolved lib l2 dirPath Hnone).
  apply in_or_app. right. now left.
Qed.

(** When every selected library resolves, the paths are the resolved ones. *)
Lemma getSharedLibraryPaths_all_resolved (libraries : list SelectedLibrary)
    (dirPath : Js.optstr) :
  (forall lib, In lib libraries -> findLibVersion lib <> None) ->
  getSharedLibraryPaths libraries dirPath
  = map Js.JStr (resolvedSharedLibraryPaths libraries dirPath).
Proof.
  intros Hall. induction libraries as [|lib l IH]; [reflexivity|].
  unfold resolvedSharedLibraryPaths. simpl flat_map. rewrite map_app.
  fold (resolvedSharedLibraryPaths l dirPath).
  destruct (findLibVersion lib) as [v|] eqn:Hv.
  - rewrite (getSharedLibraryPaths_resolved lib v l dirPath Hv).
    rewrite IH by (intros lib' Hl; apply Hall; now right). reflexivity.
  - exfalso. apply (Hall lib); [now left | exact Hv].
Qed.

(** C3: the union of the six listed groups (the library-search-path flag on
    the download root; the runtime-path flag on it; the runtime-path flag
    on each toolchain-global library path; the runtime-path flag on [lib64]
    and [lib32] under a given toolchain root; the runtime-path flag on each
    resolved shared-library path; the library-search-path flag on those
    paths) is what [getSharedLibraryPathsAsArguments] returns when every
    selected library resolves: then the vector has no duplicate, holds
    exactly the strings of the groups, and each sits at the place of its
    first occurrence.  A selected library that does not resolve breaks
    this: the vector then holds both flags followed by ["false"], and
    differs from the union of the listed groups whenever the groups do not
    happen to hold such a string. *)
Theorem getSharedLibraryPathsAsArguments_listed_groups (libraries : list SelectedLibrary)
    (libDownloadPath toolchainPath dirPath : Js.optstr) :
  let out := getSharedLibraryPathsAsArguments libraries libDownloadPath
               toolchainPath dirPath in
  let groups := listedSharedArgumentGroups libraries libDownloadPath
                  toolchainPath dirPath in
  ((forall lib, In lib libraries -> findLibVersion lib <> None) ->
   out = Underscore.union groups
   /\ NoDup out
   /\ (forall a, In a out <-> In a (List.concat groups))
   /\ (forall a, In a (List.concat groups) -> count_occ string_dec out a = 1)
   /\ (forall pre a post,
         List.concat groups = pre ++ a :: post -> ~ In a pre ->
         exists rest, out = Underscore.uniq pre ++ a :: rest /\ ~ In a rest)
   /\ (forall pre a mid b post,
         List.concat groups = pre ++ a :: mid ++ b :: post ->
         ~ In a pre -> ~ In b (pre ++ a :: mid) ->
         exists x y z, out = x ++ a :: y ++ b :: z))
  /\ (forall lib, In lib libraries -> findLibVersion lib = None ->
      In (pathFlag +s "false") out
      /\ In (libPathFlag +s "false") out
      /\ (~ In (libPathFlag +s "false") (List.concat groups) ->
          out <> Underscore.union groups)).
Proof.
  intros out groups. split.
  - intros Hall.
    assert (E : out = Underscore.union groups).
    { unfold out, groups, getSharedLibraryPathsAsArguments, sharedArgumentGroups,
        listedSharedArgumentGroups.
      rewrite (getSharedLibraryPaths_all_resolved libraries dirPath Hall), !map_map.
      reflexivity. }
    split; [exact E|]. rewrite E. unfold Underscore.union.
    split; [apply UnderscoreFacts.NoDup_uniq|].
    split; [intros a; apply UnderscoreFacts.In_uniq|].
    split; [intros a; apply UnderscoreFacts.count_uniq|].
    split.
    + intros pre a post -> Ha. now apply UnderscoreFacts.uniq_first_occurrence.
    + intros pre a mid b post -> Ha Hb. now apply UnderscoreFacts.uniq_order.
  - intros lib Hlib Hnone.
    pose proof (In_JFalse_getSharedLibraryPaths libraries lib dirPath Hlib Hnone) as Hf.
    assert (Hp : In (pathFlag +s "false") out).
    { apply In_getSharedLibraryPathsAsArguments.
      rewrite concat_sharedArgumentGroups, !in_app_iff. do 4 right. left.
      change (pathFlag +s "false") with (Js.add pathFlag Js.JFalse). now apply in_map. }
    assert (Hl : In (libPathFlag +s "false") out).
    { apply In_getSharedLibraryPathsAsArguments.
      rewrite concat_sharedArgumentGroups, !in_app_iff. do 5 right.
      change (libPathFlag +s "false") with (Js.add libPathFlag Js.JFalse).
      now apply in_map. }
    split; [exact Hp|]. split; [exact Hl|].
    intros Hout E. apply Hout. rewrite E in Hl. unfold Underscore.union in Hl.
    exact (proj1 (UnderscoreFacts.In_uniq _ _) Hl).
Qed.

(** C10, as the code has it: with an empty or absent download root the root
    is ["./lib"], and the vector begins with the library-search-path flag
    on ["./lib"]; the runtime-path flag on ["./lib"] is its second entry
    whenever the two flags differ.  When the two flags are the same string
    the union keeps the one copy at the head and nothing else of it. *)
Theorem getSharedLibraryPathsAsArguments_default_root (libraries : list SelectedLibrary)
    (libDownloadPath toolchainPath dirPath : Js.optstr) :
  Js.truthy libDownloadPath = false ->
  let out := getSharedLibraryPathsAsArguments libraries libDownloadPath
               toolchainPath dirPath in
  (exists rest, out = (libPathFlag +s "./lib") :: rest
                /\ ~ In (libPathFlag +s "./lib") rest)
  /\ (pathFlag <> libPathFlag ->
      exists rest, out = (libPathFlag +s "./lib") :: (pathFlag +s "./lib") :: rest)
  /\ (pathFlag = libPathFlag ->
      exists rest, out = (pathFlag +s "./lib") :: rest
                   /\ ~ In (pathFlag +s "./lib") rest).
Proof.
  intros Hfalsy out.
  assert (Eout : exists l, out = Underscore.uniq
                   ((libPathFlag +s "./lib") :: (pathFlag +s "./lib") :: l)).
  { unfold out, getSharedLibraryPathsAsArguments, Underscore.union.
    rewrite concat_sharedArgumentGroups, (or_else_falsy _ _ Hfalsy).
    eexists. reflexivity. }
  destruct Eout as (l & ->).
  assert (Hhead := UnderscoreFacts.uniq_head (libPathFlag +s "./lib")
                     ((pathFlag +s "./lib") :: l)).
  split; [exact Hhead|]. split.
  - intros Hne. apply UnderscoreFacts.uniq_head2.
    intros E. apply Hne. symmetry. now apply append_cancel_r in E.
  - intros E. rewrite E in *. exact Hhead.
Qed.

End SharedLibraryPathArguments.

(** ** Running the compiler *)

Section RunCompiler.

Context {node : NodeRuntime} {utils : Utils}.

Lemma runCompiler_resolved {base : BaseCompiler} (compilerExe : string)
    (options : list string) (inputFilename : string)
    (execOptions : option ExecutionOptions) (raw : ExecResult) :
  exec compilerExe options (effectiveExecOptions inputFilename execOptions)
    = Js.Resolved raw ->
  runCompiler compilerExe options inputFilename execOptions
  = Js.Resolved
      {| res_code := code raw;
         res_stdout := parseOutput (stdout raw) ("./" +s path_basename inputFilename);
         res_stderr := parseOutput (stderr raw) ("./" +s path_basename inputFilename);
         res_inputFilename := inputFilename |}.
Proof. intros Hexec. unfold runCompiler. now rewrite Hexec. Qed.

(** C5, as the code has it: the child process runs with its working
    directory set to the directory of the input file path; stdout and
    stderr of the outcome are [utils.parseOutput] applied to the child's
    stream and to ["./"] followed by the base name of the input file path
    (the path itself is not handed to the rewriting); the outcome carries
    the child's exit status and the input file path unchanged, and a
    failure to launch the child is passed on. *)
Theorem runCompiler_cwd_and_streams {base : BaseCompiler} (compilerExe : string)
    (options : list string) (inputFilename : string)
    (execOptions : option ExecutionOptions) :
  customCwd (effectiveExecOptions inputFilename execOptions)
    = Some (path_dirname inputFilename)
  /\ env (effectiveExecOptions inputFilename execOptions)
     = env (match execOptions with Some o => o | None => getDefaultExecOptions end)
  /\ runCompiler compilerExe options inputFilename execOptions
     = match exec compilerExe options (effectiveExecOptions inputFilename execOptions) with
       | Js.Resolved raw =>
           Js.Resolved
             {| res_code := code raw;
                res_stdout := parseOutput (stdout raw)
                                ("./" +s path_basename inputFilename);
                res_stderr := parseOutput (stderr raw)
                                ("./" +s path_basename inputFilename);
                res_inputFilename := inputFilename |}
       | Js.Rejected reason => Js.Rejected reason
       end.
Proof.
  split; [reflexivity|]. split; [reflexivity|].
  unfold runCompiler.
  now destruct (exec compilerExe options (effectiveExecOptions inputFilename execOptions)).
Qed.

(** C9: whatever the exit status of the child, zero or not, [runCompiler]
    resolves (it does not throw), the outcome carries that status
    unchanged, and the streams are rewritten in the same way: two runs
    whose children print the same text get the same stdout and stderr in
    their outcomes, whatever their exit statuses are. *)
Theorem runCompiler_exit_status_transparent (base1 base2 : BaseCompiler)
    (compilerExe : string) (options : list string) (inputFilename : string)
    (execOptions : option ExecutionOptions) (raw1 raw2 : ExecResult) :
  @exec base1 compilerExe options
    (@effectiveExecOptions node base1 inputFilename execOptions) = Js.Resolved raw1 ->
  @exec base2 compilerExe options
    (@effectiveExecOptions node base2 inputFilename execOptions) = Js.Resolved raw2 ->
  stdout raw1 = stdout raw2 ->
  stderr raw1 = stderr raw2 ->
  exists out1 out2,
    @runCompiler node base1 utils compilerExe options inputFilename execOptions
      = Js.Resolved out1
    /\ @runCompiler node base2 utils compilerExe options inputFilename execOptions
       = Js.Resolved out2
    /\ res_code out1 = code raw1
    /\ res_code out2 = code raw2
    /\ res_stdout out1 = parseOutput (stdout raw1) ("./" +s path_basename inputFilename)
    /\ res_stderr out1 = parseOutput (stderr raw1) ("./" +s path_basename inputFilename)
    /\ res_stdout out2 = res_stdout out1
    /\ res_stderr out2 = res_stderr out1
    /\ res_inputFilename out1 = inputFilename
    /\ res_inputFilename out2 = inputFilename.
Proof.
  intros H1 H2 Hout Herr.
  eexists. eexists.
  split; [apply (runCompiler_resolved (base := base1)); exact H1|].
  split; [apply (runCompiler_resolved (base := base2)); exact H2|].
  simpl. rewrite Hout, Herr. repeat split; reflexivity.
Qed.

End RunCompiler.

(* ------------------------------------------------------------------ *)
(** * Worked examples

    The results above at the sample data, on the POSIX runtime. *)

Section WorkedExamples.

Import Sample.
#[local] Existing Instance node.
#[local] Existing Instance base.
#[local] Existing Instance verbatim.

(** The archive of LAPACK is found in the second directory; BLAS has no
    archive anywhere. *)
Lemma locate_lapack :
  getExactStaticLibNameAndPath "lapack" ["/opt/blas/lib"; "/opt/lapack/lib"]
    = "/opt/lapack/lib/liblapack.a"
  /\ getExactStaticLibNameAndPath "blas" ["/opt/blas/lib"; "/opt/lapack/lib"] = "".
Proof.
  split.
  - refine (proj1 (@getExactStaticLibNameAndPath_first_existing node "lapack"
                     ["/opt/blas/lib"; "/opt/lapack/lib"])
              ["/opt/blas/lib"] "/opt/lapack/lib" [] eq_refl _ eq_refl).
    intros d [<-|[]]. reflexivity.
  - refine (proj1 (proj2 (@getExactStaticLibNameAndPath_first_existing node "blas"
                            ["/opt/blas/lib"; "/opt/lapack/lib"])) _).
    intros d [<-|[<-|[]]]; reflexivity.
Defined.

(** BLAS is selected and resolves, but no directory holds [libblas.a]: the
    static-link vector has the empty string for it. *)
Lemma static_links_keep_empty_resolution :
  getStaticLibraryLinks [selLapack; selBlas] ["/opt/blas/lib"; "/opt/lapack/lib"]
    = ["/opt/lapack/lib/liblapack.a"; ""]
  /\ ~ onlyExistingArchives [selLapack; selBlas] ["/opt/blas/lib"; "/opt/lapack/lib"].
Proof.
  split; [reflexivity|].
  intros Hall. specialize (Hall "" (or_intror (or_introl eq_refl))). discriminate Hall.
Defined.

Lemma static_links_entry_of_blas :
  getStaticLibraryLinks [selLapack; selBlas] ["/opt/blas/lib"; "/opt/lapack/lib"]
  = [firstArchive ["/opt/blas/lib"; "/opt/lapack/lib"] "lapack";
     firstArchive ["/opt/blas/lib"; "/opt/lapack/lib"] "blas"]
  /\ firstArchive ["/opt/blas/lib"; "/opt/lapack/lib"] "lapack"
     = "/opt/lapack/lib/liblapack.a"
  /\ firstArchive ["/opt/blas/lib"; "/opt/lapack/lib"] "blas" = "".
Proof.
  split; [|split; reflexivity].
  exact (proj1 (@getStaticLibraryLinks_one_entry_per_name node base
                  [selLapack; selBlas] ["/opt/blas/lib"; "/opt/lapack/lib"])).
Defined.

(** BLAS ships packaged headers: its two extra arguments follow its own
    include path and precede LAPACK's. *)
Lemma include_arguments_of_blas :
  findLibVersion selBlas = Some blas
  /\ packagedheaders blas = true
  /\ getIncludeArguments [selGhost; selBlas; selLapack] "/dl"
     = ["-I/opt/blas/include"; "-I/dl/blas/mod"; "-I/dl/blas/include";
        "-I/opt/lapack/include"].
Proof.
  split; [reflexivity|]. split; [reflexivity|].
  exact (@getIncludeArguments_packaged_headers node base [selGhost] selBlas [selLapack] blas "/dl"
           eq_refl eq_refl).
Defined.

(** The include flag: ["-I"] by default, ["-isystem"] where configured. *)
Lemma include_flag_default_and_custom :
  (getIncludeArguments [selBlas; selLapack] "/dl"
   = ["-I/opt/blas/include"; "-I/dl/blas/mod"; "-I/dl/blas/include";
      "-I/opt/lapack/include"]
   /\ String.prefix "-I" "-I/dl/blas/include" = true)
  /\ @getIncludeArguments node customBase [selBlas; selLapack] "/dl"
     = ["-isystem/opt/blas/include"; "-I/dl/blas/mod"; "-isystem/dl/blas/include";
        "-isystem/opt/lapack/include"].
Proof.
  split; [split|].
  - exact (proj1 (proj1 (@getIncludeArguments_include_flag node base
                           [selBlas; selLapack] "/dl") eq_refl)).
  - apply (proj2 (proj2 (proj1 (@getIncludeArguments_include_flag node base
                                  [selBlas; selLapack] "/dl") eq_refl))).
    right. right. now left.
  - exact (proj1 (proj2 (@getIncludeArguments_include_flag node customBase
                           [selBlas; selLapack] "/dl") "-isystem" eq_refl
                    ltac:(discriminate))).
Defined.

(** With a download directory and a per-library layout, each library gets
    its directory under the download root after its own paths. *)
Lemma shared_paths_with_download_directory :
  findLibVersion selBlas = Some blas
  /\ getSharedLibraryPaths [selBlas; selLapack] (Some "/dl")
     = map Js.JStr ["/opt/blas/lib"; "/opt/common/lib"; "/dl/blas/lib";
                    "/opt/common/lib"; "/opt/lapack/lib"; "/dl/lapack/lib"]
  /\ getSharedLibraryPaths [selBlas; selLapack] None
     = map Js.JStr ["/opt/blas/lib"; "/opt/common/lib";
                    "/opt/common/lib"; "/opt/lapack/lib"].
Proof.
  split; [reflexivity|]. split.
  - apply (proj1 (@getSharedLibraryPaths_downloaded_lib node base [] selBlas [selLapack]
                    blas (Some "/dl") eq_refl)).
    split; [reflexivity|]. now exists {| extractAllToRoot := false |}.
  - apply (proj1 (proj2 (@getSharedLibraryPaths_downloaded_lib node base [] selBlas
                           [selLapack] blas None eq_refl))).
    intros [Hd _]. discriminate Hd.
Defined.

(** The unknown library leaves [false] among the paths and two arguments
    that end in ["false"]. *)
Lemma ghost_library_leaves_false :
  findLibVersion selGhost = None
  /\ getSharedLibraryPaths [selGhost; selBlas] None
     = [Js.JFalse; Js.JStr "/opt/blas/lib"; Js.JStr "/opt/common/lib"]
  /\ getSharedLibraryPathsAsArguments [selGhost; selBlas] None None None
     = ["-L./lib"; "-Wl,-rpath,./lib"; "-Wl,-rpath,false";
        "-Wl,-rpath,/opt/blas/lib"; "-Wl,-rpath,/opt/common/lib";
        "-Lfalse"; "-L/opt/blas/lib"; "-L/opt/common/lib"]
  /\ In "-Lfalse" (getSharedLibraryPathsAsArguments [selGhost; selBlas] None None None).
Proof.
  split; [reflexivity|].
  destruct (@unresolved_library_reaches_shared_paths node base [] selGhost [selBlas]
              None None None eq_refl) as (E & _ & HL).
  split; [exact E|]. split; [reflexivity | exact HL].
Defined.

(** The directory both libraries list appears once with each flag. *)
Lemma shared_directory_appears_once :
  count_occ string_dec
    (getSharedLibraryPathsAsArguments [selBlas; selLapack] None (Some "/opt/gcc") None)
    "-Wl,-rpath,/opt/common/lib" = 1
  /\ count_occ string_dec
       (getSharedLibraryPathsAsArguments [selBlas; selLapack] None (Some "/opt/gcc") None)
       "-L/opt/common/lib" = 1.
Proof.
  apply (proj2 (proj2 (proj2 (proj2 (proj2
           (@getSharedLibraryPathsAsArguments_union node base [selBlas; selLapack]
              None (Some "/opt/gcc") None)))))
           selLapack lapack "/opt/common/lib").
  - right. now left.
  - reflexivity.
  - now left.
Defined.

(** With the unknown library selected the vector is not the union of the
    listed groups: ["-Lfalse"] is in it and in none of them. *)
Lemma ghost_library_breaks_the_union :
  findLibVersion selGhost = None
  /\ In "-Lfalse" (getSharedLibraryPathsAsArguments [selGhost; selBlas] None None None)
  /\ Underscore.union (listedSharedArgumentGroups [selGhost; selBlas] None None None)
     = ["-L./lib"; "-Wl,-rpath,./lib"; "-Wl,-rpath,/opt/blas/lib";
        "-Wl,-rpath,/opt/common/lib"; "-L/opt/blas/lib"; "-L/opt/common/lib"]
  /\ getSharedLibraryPathsAsArguments [selGhost; selBlas] None None None
     <> Underscore.union (listedSharedArgumentGroups [selGhost; selBlas] None None None).
Proof.
  split; [reflexivity|].
  destruct (proj2 (@getSharedLibraryPathsAsArguments_listed_groups node base
                     [selGhost; selBlas] None None None)
              selGhost (or_introl eq_refl) eq_refl) as (_ & Hin & Hne).
  split; [exact Hin|]. split; [reflexivity|].
  apply Hne. intros H. vm_compute in H.
  repeat (destruct H as [H | H]; [discriminate H|]). exact H.
Defined.

(** No download root: the vector starts with both flags on ["./lib"]. *)
Lemma default_root_heads_the_vector :
  Js.truthy (Some "") = false
  /\ exists rest,
       getSharedLibraryPathsAsArguments [selBlas] (Some "") None None
       = "-L./lib" :: "-Wl,-rpath,./lib" :: rest.
Proof.
  split; [reflexivity|].
  apply (proj1 (proj2 (@getSharedLibraryPathsAsArguments_default_root node base [selBlas]
                         (Some "") None None eq_refl))).
  discriminate.
Defined.

(** Where the runtime-path flag is configured to be ["-L"], the flag of
    library search paths, the union keeps one entry for the root. *)
Lemma same_flags_leave_one_root_entry :
  @getSharedLibraryPathsAsArguments node customBase [] None None None = ["-L./lib"]
  /\ ~ @startsWithDefaultRoot node customBase [] None None None.
Proof.
  split; [reflexivity|].
  intros (rest & E). discriminate E.
Defined.

(** The spec's end-to-end example: the child runs in [/tmp/work]. *)
Lemma child_runs_next_to_the_source :
  customCwd (effectiveExecOptions "/tmp/work/prog.f90" None) = Some "/tmp/work"
  /\ "./" +s path_basename "/tmp/work/prog.f90" = "./prog.f90".
Proof.
  split; [|reflexivity].
  exact (proj1 (@runCompiler_cwd_and_streams node verbatim base "gfortran" [] "/tmp/work/prog.f90" None)).
Defined.

(** Two sources with the same base name in different directories:
    [parseOutput] gets the same arguments in both runs, so no [parseOutput]
    can replace the path of the one in the first run and leave it alone in
    the second. *)
Lemma input_path_is_not_what_gets_rewritten :
  (forall u : Utils,
      @runCompiler node (failing 1) u "gfortran" [] "/tmp/work/prog.f90" None
      = Js.Resolved {| res_code := 1;
                       res_stdout := @parseOutput u "" "./prog.f90";
                       res_stderr := @parseOutput u diagnostic "./prog.f90";
                       res_inputFilename := "/tmp/work/prog.f90" |}
      /\ @runCompiler node (failing 1) u "gfortran" [] "/srv/job/prog.f90" None
         = Js.Resolved {| res_code := 1;
                          res_stdout := @parseOutput u "" "./prog.f90";
                          res_stderr := @parseOutput u diagnostic "./prog.f90";
                          res_inputFilename := "/srv/job/prog.f90" |})
  /\ ~ (exists u : Utils,
          @rewritesInputPath node (failing 1) u "gfortran" [] "/tmp/work/prog.f90" None
          /\ @rewritesInputPath node (failing 1) u "gfortran" [] "/srv/job/prog.f90" None).
Proof.
  split.
  - intros u. split; reflexivity.
  - intros (u & H1 & H2).
    destruct (H1 _ eq_refl) as (o1 & R1 & _ & E1).
    destruct (H2 _ eq_refl) as (o2 & R2 & _ & E2).
    injection R1 as <-. injection R2 as <-.
    vm_compute in E1, E2. rewrite E1 in E2. discriminate E2.
Defined.

(** Exit status 0 and exit status 1 with the same output: both runs
    resolve, with their own status and the same streams. *)
Lemma failing_compilation_is_reported :
  exists out0 out1,
    @runCompiler node (failing 0) verbatim "gfortran" [] "/tmp/work/prog.f90" None
      = Js.Resolved out0
    /\ @runCompiler node (failing 1) verbatim "gfortran" [] "/tmp/work/prog.f90" None
       = Js.Resolved out1
    /\ res_code out0 = 0%Z
    /\ res_code out1 = 1%Z
    /\ res_stdout out1 = res_stdout out0
    /\ res_stderr out1 = res_stderr out0.
Proof.
  destruct (@runCompiler_exit_status_transparent node verbatim (failing 0) (failing 1)
              "gfortran" [] "/tmp/work/prog.f90" None
              {| code := 0; stdout := ""; stderr := diagnostic |}
              {| code := 1; stdout := ""; stderr := diagnostic |}
              eq_refl eq_refl eq_refl eq_refl)
    as (out0 & out1 & R0 & R1 & C0 & C1 & _ & _ & S & E & _).
  exists out0, out1. repeat split; assumption.
Defined.

End WorkedExamples.

(* ------------------------------------------------------------------ *)
(** * Further properties of the methods *)

(** ** More on [_.uniq] *)

Module UnderscoreAbsorb.
Import Underscore.

(** Values the result already has are passed over. *)
Lemma uniq_from_seen (b acc : list string) :
  (forall x, In x b -> In x acc) -> uniq_from acc b = acc.
Proof.
  induction b as [|x b IH]; intros Hb; [reflexivity|].
  rewrite UnderscoreFacts.uniq_from_cons. unfold push_new.
  assert (Hx : contains acc x = true).
  { apply UnderscoreFacts.contains_In. apply Hb. now left. }
  rewrite Hx. apply IH. intros y Hy. apply Hb. now right.
Qed.

(** A block of values that all occurred before can be left out. *)
Lemma uniq_absorb (a b c : list string) :
  (forall x, In x b -> In x a) -> uniq (a ++ b ++ c) = uniq (a ++ c).
Proof.
  intros Hb. unfold uniq.
  rewrite !UnderscoreFacts.uniq_from_app. fold (uniq a).
  rewrite (uniq_from_seen b (uniq a)); [reflexivity|].
  intros x Hx. apply UnderscoreFacts.In_uniq. now apply Hb.
Qed.

(** The same block repeated in each of two runs of blocks. *)
Lemma uniq_repeated_blocks (p a b c d a' b' c' d' : list string) :
  uniq (p ++ (a ++ b ++ c ++ b ++ d) ++ (a' ++ b' ++ c' ++ b' ++ d'))
  = uniq (p ++ (a ++ b ++ c ++ d) ++ (a' ++ b' ++ c' ++ d')).
Proof.
  transitivity (uniq (p ++ (a ++ b ++ c ++ d) ++ (a' ++ b' ++ c' ++ b' ++ d'))).
  - replace (p ++ (a ++ b ++ c ++ b ++ d) ++ (a' ++ b' ++ c' ++ b' ++ d'))
      with ((p ++ a ++ b ++ c) ++ b ++ (d ++ a' ++ b' ++ c' ++ b' ++ d'))
      by (rewrite <- !app_assoc; reflexivity).
    rewrite uniq_absorb.
    + f_equal. rewrite <- !app_assoc. reflexivity.
    + intros x Hx. rewrite !in_app_iff. right. right. now left.
  - replace (p ++ (a ++ b ++ c ++ d) ++ (a' ++ b' ++ c' ++ b' ++ d'))
      with ((p ++ a ++ b ++ c ++ d ++ a' ++ b' ++ c') ++ b' ++ d')
      by (rewrite <- !app_assoc; reflexivity).
    rewrite uniq_absorb.
    + f_equal. rewrite <- !app_assoc. reflexivity.
    + intros x Hx. rewrite !in_app_iff. do 6 right. now left.
Qed.

End UnderscoreAbsorb.

(** ** Locating archives *)

Section LocatingArchives.

Context {node : NodeRuntime} {base : BaseCompiler}.

Lemma probe_app (file : string) (l1 l2 : list string) :
  probe file (l1 ++ l2)
  = if existsb (fun dir => fs_existsSync (path_join [dir; file])) l1
    then probe file l1 else probe file l2.
Proof.
  induction l1 as [|d l1 IH]; simpl; [reflexivity|].
  destruct (fs_existsSync (path_join [d; file])); [reflexivity | exact IH].
Qed.

(** With the empty path not in the filesystem, the loop returns a non-empty
    string exactly when some directory holds the file. *)
Lemma probe_nonEmpty (file : string) (libPaths : list string) :
  fs_existsSync "" = false ->
  nonEmpty (probe file libPaths)
  = existsb (fun dir => fs_existsSync (path_join [dir; file])) libPaths.
Proof.
  intros Hempty. induction libPaths as [|d rest IH]; simpl; [reflexivity|].
  destruct (fs_existsSync (path_join [d; file])) eqn:Hd; [|exact IH].
  unfold nonEmpty. destruct (String.eqb_spec (path_join [d; file]) "") as [E|_];
    [|reflexivity].
  rewrite E, Hempty in Hd. discriminate Hd.
Qed.

(** X1: searching a list of directories followed by more directories gives
    the answer of the first list whenever one of its directories holds the
    archive, and the answer of the later directories otherwise: directories
    added at the end never change a hit. *)
Theorem getExactStaticLibNameAndPath_earlier_directories_win (lib : string)
    (libPaths more : list string) :
  getExactStaticLibNameAndPath lib (libPaths ++ more)
  = if holdsArchive libPaths lib
    then getExactStaticLibNameAndPath lib libPaths
    else getExactStaticLibNameAndPath lib more.
Proof. unfold getExactStaticLibNameAndPath, holdsArchive, archiveIn. apply probe_app. Qed.

(** X2: as long as the empty path does not exist in the filesystem, the
    empty string is returned exactly when no listed directory holds the
    archive, so it cannot be mistaken for a path that was found. *)
Theorem getExactStaticLibNameAndPath_empty_iff (lib : string) (libPaths : list string) :
  fs_existsSync "" = false ->
  (getExactStaticLibNameAndPath lib libPaths = "" <-> holdsArchive libPaths lib = false).
Proof.
  intros Hempty. unfold getExactStaticLibNameAndPath, holdsArchive, archiveIn.
  rewrite <- (probe_nonEmpty (libFilename lib) libPaths Hempty). unfold nonEmpty.
  destruct (String.eqb_spec (probe (libFilename lib) libPaths) ""); simpl;
    split; congruence.
Qed.

(** X3: when no search directory holds the archive of any library of the
    sorted list (in particular when the search-path list is left at its
    default, the empty list), the static-link vector consists of empty
    strings only, one for each non-empty name. *)
Theorem getStaticLibraryLinks_nothing_found (libraries : list SelectedLibrary)
    (libPaths : list string) :
  (forall lib, In lib (getSortedStaticLibraries libraries) ->
               holdsArchive libPaths lib = false) ->
  getStaticLibraryLinks libraries libPaths
  = map (fun _ => "") (filter nonEmpty (getSortedStaticLibraries libraries)).
Proof.
  intros Hnone. unfold getStaticLibraryLinks. apply map_ext_in.
  intros lib Hlib. apply filter_In in Hlib. destruct Hlib as [Hlib _].
  unfold getExactStaticLibNameAndPath. apply probe_none.
  intros d Hd. specialize (Hnone lib Hlib). unfold holdsArchive in Hnone.
  destruct (fs_existsSync (path_join [d; libFilename lib])) eqn:E; [|reflexivity].
  assert (existsb (fun dir => fs_existsSync (archiveIn dir lib)) libPaths = true)
    by (apply existsb_exists; exists d; split; [exact Hd | exact E]).
  congruence.
Qed.

(** X4: as long as the empty path does not exist in the filesystem, dropping
    the empty strings from the static-link vector leaves exactly the archive
    paths of the non-empty names whose archive some directory holds, in the
    order of the sorted list. *)
Theorem getStaticLibraryLinks_compact (libraries : list SelectedLibrary)
    (libPaths : list string) :
  fs_existsSync "" = false ->
  compact (getStaticLibraryLinks libraries libPaths)
  = map (fun lib => getExactStaticLibNameAndPath lib libPaths)
        (filter (fun lib => nonEmpty lib && holdsArchive libPaths lib)
                (getSortedStaticLibraries libraries)).
Proof.
  intros Hempty. unfold compact, getStaticLibraryLinks.
  induction (getSortedStaticLibraries libraries) as [|lib names IH]; [reflexivity|].
  simpl. destruct (nonEmpty lib) eqn:Hlib; simpl; [|exact IH].
  assert (E : nonEmpty (getExactStaticLibNameAndPath lib libPaths)
              = holdsArchive libPaths lib)
    by (apply probe_nonEmpty; exact Hempty).
  rewrite E. destruct (holdsArchive libPaths lib); simpl; now rewrite IH.
Qed.

End LocatingArchives.

(** ** More on shared-library paths *)

Section SharedLibraryPathEntries.

Context {node : NodeRuntime} {base : BaseCompiler}.

Lemma getSharedLibraryPaths_cons (lib : SelectedLibrary) (l : list SelectedLibrary)
    (dirPath : Js.optstr) :
  getSharedLibraryPaths (lib :: l) dirPath
  = getSharedLibraryPaths [lib] dirPath ++ getSharedLibraryPaths l dirPath.
Proof. apply (getSharedLibraryPaths_app [lib] l). Qed.

(** X5: the array returned by [getSharedLibraryPaths] holds the boolean
    [false] exactly when some selected library has no version in the
    registry; when every library resolves it is an array of strings, as its
    declared type says. *)
Theorem getSharedLibraryPaths_false_iff (libraries : list SelectedLibrary)
    (dirPath : Js.optstr) :
  In Js.JFalse (getSharedLibraryPaths libraries dirPath)
  <-> exists lib, In lib libraries /\ findLibVersion lib = None.
Proof.
  induction libraries as [|lib l IH].
  - split; [intros [] | intros (lib & [] & _)].
  - destruct (findLibVersion lib) as [v|] eqn:Hv.
    + rewrite (getSharedLibraryPaths_resolved lib v l dirPath Hv), in_app_iff, IH.
      split.
      * intros [Hin | (lib' & Hl & Hn)].
        -- apply in_map_iff in Hin. destruct Hin as (p & Hp & _). discriminate Hp.
        -- exists lib'. split; [now right | exact Hn].
      * intros (lib' & [<- | Hl] & Hn); [congruence|].
        right. now exists lib'.
    + rewrite (getSharedLibraryPaths_unresolved lib l dirPath Hv). split.
      * intros _. exists lib. split; [now left | exact Hv].
      * intros _. now left.
Qed.

(** X6: an empty download directory counts as none; and when there is no
    build-environment setup, or the setup extracts everything to one root,
    the download directory has no influence on the result at all. *)
Theorem getSharedLibraryPaths_ignores_dirPath (libraries : list SelectedLibrary) :
  getSharedLibraryPaths libraries (Some "") = getSharedLibraryPaths libraries None
  /\ ((buildenvsetup = None
       \/ exists setup, buildenvsetup = Some setup /\ extractAllToRoot setup = true) ->
      forall dirPath dirPath',
        getSharedLibraryPaths libraries dirPath = getSharedLibraryPaths libraries dirPath').
Proof.
  split.
  - assert (Hoff : addsDownloadedLib (Some "") = addsDownloadedLib None).
    { unfold addsDownloadedLib. destruct buildenvsetup as [setup|]; [|reflexivity].
      simpl. now rewrite !andb_false_r. }
    unfold getSharedLibraryPaths. apply (f_equal Js.flat). apply map_ext. intros lib.
    unfold sharedPathsOf. rewrite Hoff.
    destruct (addsDownloadedLib None) eqn:Hn; [|reflexivity].
    unfold addsDownloadedLib in Hn. destruct buildenvsetup; [|discriminate Hn].
    simpl in Hn. rewrite andb_false_r in Hn. discriminate Hn.
  - intros Hsetup.
    assert (Hoff : forall d, addsDownloadedLib d = false).
    { intros d. unfold addsDownloadedLib.
      destruct Hsetup as [-> | (setup & -> & ->)]; reflexivity. }
    intros d d'. unfold getSharedLibraryPaths. apply (f_equal Js.flat).
    apply map_ext. intros lib. unfold sharedPathsOf. now rewrite !Hoff.
Qed.

(** X7: every string of the result is a library path of a selected library
    that resolves, or the [lib] folder of such a library under the download
    directory when the guard of the [push] holds; and each of those is in
    the result. *)
Theorem In_getSharedLibraryPaths_iff (libraries : list SelectedLibrary)
    (dirPath : Js.optstr) (p : string) :
  In (Js.JStr p) (getSharedLibraryPaths libraries dirPath)
  <-> exists lib v,
        In lib libraries /\ findLibVersion lib = Some v
        /\ (In p (libpath v)
            \/ (addsDownloadedLib dirPath = true
                /\ p = path_join [Js.the dirPath; id lib; "lib"])).
Proof.
  induction libraries as [|lib l IH].
  - split; [intros [] | intros (lib & v & [] & _)].
  - destruct (findLibVersion lib) as [v|] eqn:Hv.
    + rewrite (getSharedLibraryPaths_resolved lib v l dirPath Hv), in_app_iff, IH.
      split.
      * intros [Hin | (lib' & v' & Hl & Hv' & Hp)].
        -- apply in_map_iff in Hin. destruct Hin as (q & [= ->] & Hq).
           exists lib, v. split; [now left|]. split; [exact Hv|].
           destruct (addsDownloadedLib dirPath); [|now left].
           apply in_app_or in Hq. destruct Hq as [Hq | [<- | []]];
             [now left | right; now split].
        -- exists lib', v'. split; [now right | now split].
      * intros (lib' & v' & [<- | Hl] & Hv' & Hp).
        -- left. rewrite Hv in Hv'. injection Hv' as <-.
           apply in_map. destruct Hp as [Hp | [Hon ->]].
           ++ destruct (addsDownloadedLib dirPath); [apply in_or_app; now left | exact Hp].
           ++ rewrite Hon. apply in_or_app. right. now left.
        -- right. exists lib', v'. now split.
    + rewrite (getSharedLibraryPaths_unresolved lib l dirPath Hv). simpl. rewrite IH.
      split.
      * intros [Hf | (lib' & v' & Hl & Hv' & Hp)]; [discriminate Hf|].
        exists lib', v'. split; [now right | now split].
      * intros (lib' & v' & [<- | Hl] & Hv' & Hp); [congruence|].
        right. exists lib', v'. now split.
Qed.

End SharedLibraryPathEntries.

(** ** More on include arguments *)

Section IncludeArgumentsOfResolved.

Context {node : NodeRuntime} {base : BaseCompiler}.

(** X8: the include arguments are those of the selected libraries that
    resolve: leaving every unresolved library out of the list gives the same
    vector. *)
Theorem getIncludeArguments_resolved_only (libraries : list SelectedLibrary)
    (dirPath : string) :
  getIncludeArguments libraries dirPath
  = getIncludeArguments (filter resolves libraries) dirPath.
Proof.
  induction libraries as [|lib l IH]; [reflexivity|].
  simpl filter. unfold resolves at 1.
  destruct (findLibVersion lib) as [v|] eqn:Hv.
  - rewrite !getIncludeArguments_cons. now rewrite IH.
  - rewrite getIncludeArguments_cons. unfold includeArgsOf. rewrite Hv. exact IH.
Qed.

(** X9: when no selected library that resolves has packaged headers, the
    download directory plays no part: the vector is the include flag put in
    front of every include path, library after library. *)
Theorem getIncludeArguments_without_packaged_headers (libraries : list SelectedLibrary)
    (dirPath : string) :
  (forall lib v, In lib libraries -> findLibVersion lib = Some v ->
                 packagedheaders v = false) ->
  getIncludeArguments libraries dirPath
  = map (fun p => Js.or_else (includeFlag compiler) "-I" +s p)
        (flat_map (fun lib => match findLibVersion lib with
                              | Some v => path v
                              | None => []
                              end) libraries).
Proof.
  intros Hplain. induction libraries as [|lib l IH]; [reflexivity|].
  rewrite getIncludeArguments_cons. simpl flat_map. rewrite map_app.
  rewrite IH by (intros lib' v' Hl; apply Hplain; now right).
  f_equal. unfold includeArgsOf.
  destruct (findLibVersion lib) as [v|] eqn:Hv; [|reflexivity].
  now rewrite (Hplain lib v (or_introl eq_refl) Hv).
Qed.

End IncludeArgumentsOfResolved.

(** ** More on shared-library path arguments *)

Section SharedLibraryPathArgumentShape.

Context {node : NodeRuntime} {base : BaseCompiler}.

(** X10: with a non-empty download root the vector starts with the
    library-search-path flag on that root, taken as given, and the
    runtime-path flag on it comes second whenever the two flags differ. *)
Theorem getSharedLibraryPathsAsArguments_explicit_root (libraries : list SelectedLibrary)
    (root : string) (toolchainPath dirPath : Js.optstr) :
  root <> "" ->
  (exists rest,
      getSharedLibraryPathsAsArguments libraries (Some root) toolchainPath dirPath
      = (libPathFlag +s root) :: rest
      /\ ~ In (libPathFlag +s root) rest)
  /\ (pathFlag <> libPathFlag ->
      exists rest,
        getSharedLibraryPathsAsArguments libraries (Some root) toolchainPath dirPath
        = (libPathFlag +s root) :: (pathFlag +s root) :: rest).
Proof.
  intros Hroot.
  assert (E : exists l,
             getSharedLibraryPathsAsArguments libraries (Some root) toolchainPath dirPath
             = Underscore.uniq ((libPathFlag +s root) :: (pathFlag +s root) :: l)).
  { unfold getSharedLibraryPathsAsArguments, Underscore.union.
    rewrite concat_sharedArgumentGroups, (or_else_custom root "./lib" Hroot).
    eexists. reflexivity. }
  destruct E as (l & ->). split.
  - apply UnderscoreFacts.uniq_head.
  - intros Hne. apply UnderscoreFacts.uniq_head2.
    intros E. apply Hne. symmetry. now apply append_cancel_r in E.
Qed.

(** X11: every argument of the vector is the library-search-path flag or
    the runtime-path flag followed by something: nothing reaches the command
    line without one of the two flags in front. *)
Theorem getSharedLibraryPathsAsArguments_flagged (libraries : list SelectedLibrary)
    (libDownloadPath toolchainPath dirPath : Js.optstr) (a : string) :
  In a (getSharedLibraryPathsAsArguments libraries libDownloadPath toolchainPath dirPath) ->
  String.prefix libPathFlag a = true \/ String.prefix pathFlag a = true.
Proof.
  intros Ha. apply In_getSharedLibraryPathsAsArguments in Ha.
  rewrite concat_sharedArgumentGroups, !in_app_iff in Ha.
  assert (Hadd : forall flag items, In a (map (Js.add flag) items) ->
                                    String.prefix flag a = true).
  { intros flag items Hin. apply in_map_iff in Hin.
    destruct Hin as ([q|] & <- & _); apply prefix_append. }
  destruct Ha as [[<-|[]] | [[<-|[]] | [Hg | [Ht | [Hs | Hs]]]]].
  - left. apply prefix_append.
  - right. apply prefix_append.
  - right. apply in_map_iff in Hg. destruct Hg as (q & <- & _). apply prefix_append.
  - right. destruct (Js.truthy toolchainPath); [|destruct Ht].
    destruct Ht as [<- | [<- | []]]; apply prefix_append.
  - right. now apply (Hadd pathFlag (getSharedLibraryPaths libraries dirPath)).
  - left. now apply (Hadd libPathFlag (getSharedLibraryPaths libraries dirPath)).
Qed.

(** X12: selecting a library a second time changes nothing: the vector for
    a list in which a library occurs again later is the vector for the list
    without the later occurrence. *)
Theorem getSharedLibraryPathsAsArguments_repeated_library
    (l1 : list SelectedLibrary) (lib : SelectedLibrary) (l2 l3 : list SelectedLibrary)
    (libDownloadPath toolchainPath dirPath : Js.optstr) :
  getSharedLibraryPathsAsArguments (l1 ++ lib :: l2 ++ lib :: l3)
    libDownloadPath toolchainPath dirPath
  = getSharedLibraryPathsAsArguments (l1 ++ lib :: l2 ++ l3)
      libDownloadPath toolchainPath dirPath.
Proof.
  unfold getSharedLibraryPathsAsArguments, Underscore.union, sharedArgumentGroups.
  cbn [List.concat]. rewrite !app_nil_r.
  assert (Ed : getSharedLibraryPaths (l1 ++ lib :: l2 ++ lib :: l3) dirPath
               = getSharedLibraryPaths l1 dirPath ++ getSharedLibraryPaths [lib] dirPath
                 ++ getSharedLibraryPaths l2 dirPath ++ getSharedLibraryPaths [lib] dirPath
                 ++ getSharedLibraryPaths l3 dirPath).
  { rewrite getSharedLibraryPaths_app,
      (getSharedLibraryPaths_cons lib (l2 ++ lib :: l3)),
      getSharedLibraryPaths_app, (getSharedLibraryPaths_cons lib l3). reflexivity. }
  assert (En : getSharedLibraryPaths (l1 ++ lib :: l2 ++ l3) dirPath
               = getSharedLibraryPaths l1 dirPath ++ getSharedLibraryPaths [lib] dirPath
                 ++ getSharedLibraryPaths l2 dirPath ++ getSharedLibraryPaths l3 dirPath).
  { rewrite getSharedLibraryPaths_app, (getSharedLibraryPaths_cons lib (l2 ++ l3)),
      getSharedLibraryPaths_app. reflexivity. }
  rewrite Ed, En, !map_app.
  set (p := [libPathFlag +s downloadRoot libDownloadPath]
            ++ [pathFlag +s downloadRoot libDownloadPath]
            ++ map (fun q => pathFlag +s q) (libPath compiler)
            ++ map (fun q => pathFlag +s q) (toolchainLibraryPaths toolchainPath)).
  match goal with
  | |- Underscore.uniq ?lhs = Underscore.uniq ?rhs =>
      replace lhs with (p ++ (map (Js.add pathFlag) (getSharedLibraryPaths l1 dirPath)
                               ++ map (Js.add pathFlag) (getSharedLibraryPaths [lib] dirPath)
                               ++ map (Js.add pathFlag) (getSharedLibraryPaths l2 dirPath)
                               ++ map (Js.add pathFlag) (getSharedLibraryPaths [lib] dirPath)
                               ++ map (Js.add pathFlag) (getSharedLibraryPaths l3 dirPath))
                          ++ (map (Js.add libPathFlag) (getSharedLibraryPaths l1 dirPath)
                               ++ map (Js.add libPathFlag) (getSharedLibraryPaths [lib] dirPath)
                               ++ map (Js.add libPathFlag) (getSharedLibraryPaths l2 dirPath)
                               ++ map (Js.add libPathFlag) (getSharedLibraryPaths [lib] dirPath)
                               ++ map (Js.add libPathFlag) (getSharedLibraryPaths l3 dirPath)))
        by (unfold p; rewrite <- !app_assoc; reflexivity);
      replace rhs with (p ++ (map (Js.add pathFlag) (getSharedLibraryPaths l1 dirPath)
                               ++ map (Js.add pathFlag) (getSharedLibraryPaths [lib] dirPath)
                               ++ map (Js.add pathFlag) (getSharedLibraryPaths l2 dirPath)
                               ++ map (Js.add pathFlag) (getSharedLibraryPaths l3 dirPath))
                          ++ (map (Js.add libPathFlag) (getSharedLibraryPaths l1 dirPath)
                               ++ map (Js.add libPathFlag) (getSharedLibraryPaths [lib] dirPath)
                               ++ map (Js.add libPathFlag) (getSharedLibraryPaths l2 dirPath)
                               ++ map (Js.add libPathFlag) (getSharedLibraryPaths l3 dirPath)))
        by (unfold p; rewrite <- !app_assoc; reflexivity)
  end.
  apply UnderscoreAbsorb.uniq_repeated_blocks.
Qed.

End SharedLibraryPathArgumentShape.

(** ** More on running the compiler *)

Section RunCompilerOptions.

Context {node : NodeRuntime} {base : BaseCompiler} {utils : Utils}.

(** X13: a working directory the caller puts in the execution options is
    never used: two calls whose options differ only in [customCwd] give the
    same result, and options that are absent stand for the default ones. *)
Theorem runCompiler_overrides_customCwd (compilerExe : string) (options : list string)
    (inputFilename : string) (execOptions execOptions' : ExecutionOptions) :
  env execOptions = env execOptions' ->
  runCompiler compilerExe options inputFilename (Some execOptions)
  = runCompiler compilerExe options inputFilename (Some execOptions')
  /\ runCompiler compilerExe options inputFilename None
     = runCompiler compilerExe options inputFilename (Some getDefaultExecOptions).
Proof.
  intros Henv. split; [|reflexivity].
  unfold runCompiler, effectiveExecOptions. now rewrite Henv.
Qed.

End RunCompilerOptions.

(* ------------------------------------------------------------------ *)
(** * Further worked examples *)

Section FurtherExamples.

Import Sample.
#[local] Existing Instance node.
#[local] Existing Instance base.
#[local] Existing Instance verbatim.

(** No directory holds [libblas.a], and the empty string says so. *)
Lemma blas_archive_is_missing :
  fs_existsSync "" = false
  /\ holdsArchive ["/opt/blas/lib"; "/opt/lapack/lib"] "blas" = false
  /\ getExactStaticLibNameAndPath "blas" ["/opt/blas/lib"; "/opt/lapack/lib"] = "".
Proof.
  split; [reflexivity|]. split; [reflexivity|].
  exact (proj2 (@getExactStaticLibNameAndPath_empty_iff node "blas"
                  ["/opt/blas/lib"; "/opt/lapack/lib"] eq_refl) eq_refl).
Defined.

(** Without search paths every static link is the empty string. *)
Lemma static_links_without_search_paths :
  getStaticLibraryLinks [selLapack; selBlas] [] = [""; ""].
Proof.
  refine (@getStaticLibraryLinks_nothing_found node base [selLapack; selBlas] [] _).
  intros lib _. reflexivity.
Defined.

(** Dropping the empty strings leaves the one archive that exists. *)
Lemma static_links_compacted :
  fs_existsSync "" = false
  /\ compact (getStaticLibraryLinks [selLapack; selBlas]
                ["/opt/blas/lib"; "/opt/lapack/lib"])
     = ["/opt/lapack/lib/liblapack.a"].
Proof.
  split; [reflexivity|].
  exact (@getStaticLibraryLinks_compact node base [selLapack; selBlas]
           ["/opt/blas/lib"; "/opt/lapack/lib"] eq_refl).
Defined.

(** Without a build-environment setup the download directory changes
    nothing. *)
Lemma download_directory_without_setup :
  @buildenvsetup customBase = None
  /\ @getSharedLibraryPaths node customBase [selBlas; selLapack] (Some "/dl")
     = @getSharedLibraryPaths node customBase [selBlas; selLapack] None.
Proof.
  split; [reflexivity|].
  exact (proj2 (@getSharedLibraryPaths_ignores_dirPath node customBase
                  [selBlas; selLapack]) (or_introl eq_refl) (Some "/dl") None).
Defined.

(** LAPACK has no packaged headers: one argument per include path. *)
Lemma include_arguments_of_lapack :
  getIncludeArguments [selGhost; selLapack] "/dl" = ["-I/opt/lapack/include"].
Proof.
  refine (@getIncludeArguments_without_packaged_headers node base
            [selGhost; selLapack] "/dl" _).
  intros lib v [<- | [<- | []]] Hv; vm_compute in Hv.
  - discriminate Hv.
  - injection Hv as <-. reflexivity.
Defined.

(** An explicit download root heads the vector with both flags. *)
Lemma explicit_root_heads_the_vector :
  "/dl/libs" <> ""
  /\ exists rest,
       getSharedLibraryPathsAsArguments [selBlas] (Some "/dl/libs") None None
       = "-L/dl/libs" :: "-Wl,-rpath,/dl/libs" :: rest.
Proof.
  split; [discriminate|].
  refine (proj2 (@getSharedLibraryPathsAsArguments_explicit_root node base [selBlas]
                   "/dl/libs" None None _) _); discriminate.
Defined.

(** The toolchain's [lib64] carries the runtime-path flag. *)
Lemma toolchain_argument_is_flagged :
  In "-Wl,-rpath,/opt/gcc/lib64"
     (getSharedLibraryPathsAsArguments [selBlas] None (Some "/opt/gcc") None)
  /\ (String.prefix "-L" "-Wl,-rpath,/opt/gcc/lib64" = true
      \/ String.prefix "-Wl,-rpath," "-Wl,-rpath,/opt/gcc/lib64" = true).
Proof.
  assert (Hin : In "-Wl,-rpath,/opt/gcc/lib64"
                   (getSharedLibraryPathsAsArguments [selBlas] None (Some "/opt/gcc") None))
    by (right; right; now left).
  split; [exact Hin|].
  exact (@getSharedLibraryPathsAsArguments_flagged node base [selBlas] None
           (Some "/opt/gcc") None "-Wl,-rpath,/opt/gcc/lib64" Hin).
Defined.

(** A working directory given by the caller makes no difference. *)
Lemma caller_cwd_is_overridden :
  runCompiler "gfortran" ["-c"] "/tmp/work/prog.f90"
    (Some {| customCwd := Some "/elsewhere"; env := [("LANG", "C")] |})
  = runCompiler "gfortran" ["-c"] "/tmp/work/prog.f90"
      (Some {| customCwd := None; env := [("LANG", "C")] |}).
Proof.
  exact (proj1 (@runCompiler_overrides_customCwd node base verbatim "gfortran" ["-c"]
                  "/tmp/work/prog.f90"
                  {| customCwd := Some "/elsewhere"; env := [("LANG", "C")] |}
                  {| customCwd := None; env := [("LANG", "C")] |} eq_refl)).
Defined.

End FurtherExamples.
